(** * sc4-single-cpu: the single-CPU affinity plugin

    A shallow embedding of [src/SingleCPUDllDirector.cpp]: the bit trick
    [GetLowestSetBitMask], the affinity configuration
    [ConfigureForSingleCPU] and the startup hook
    [SingleCPUDllDirector::OnStart], with the properties the specification
    states about them. *)

From Stdlib Require Import ZArith Lia Bool List String Ascii.
Import ListNotations.

Local Open Scope Z_scope.

(** ** Pointer-sized integers

    [DWORD_PTR] and [uintptr_t] are unsigned integers as wide as a pointer,
    [intptr_t] is the signed integer of that width.  The width in bits is the
    section variable [bits] (32 for the x86 build the game loads, 64 for an
    x64 build).  A value of an unsigned type is a [Z] in [0, 2^bits), a value
    of the signed type a [Z] in [-2^(bits-1), 2^(bits-1)); conversions and
    arithmetic wrap around modulo [2^bits]. *)

Section PointerWidth.

Variable bits : Z.

Definition modulus : Z := 2 ^ bits.
Definition half_modulus : Z := 2 ^ (bits - 1).

(** A value a [DWORD_PTR] can hold. *)
Definition is_DWORD_PTR (x : Z) : Prop := 0 <= x < modulus.

(** [static_cast<uintptr_t>(x)], also [static_cast<DWORD_PTR>(x)]. *)
Definition to_uintptr (x : Z) : Z := x mod modulus.

(** [static_cast<intptr_t>(x)]. *)
Definition to_intptr (x : Z) : Z :=
  let r := x mod modulus in
  if r <? half_modulus then r else r - modulus.

(** Unary minus on [intptr_t]; the most negative value wraps to itself. *)
Definition neg_intptr (x : Z) : Z := to_intptr (- x).

(** [a & b] with [a] a [uintptr_t] and [b] an [intptr_t]: the signed operand
    is converted to the unsigned type, the result is unsigned. *)
Definition and_uintptr_intptr (a b : Z) : Z := Z.land a (to_uintptr b).

(** [GetLowestSetBitMask], line 41:
[[
    return static_cast<DWORD_PTR>(static_cast<uintptr_t>(value) & -static_cast<intptr_t>(value));
]] *)
Definition GetLowestSetBitMask (value : Z) : Z :=
  to_uintptr (and_uintptr_intptr (to_uintptr value) (neg_intptr (to_intptr value))).

(** The selection as the specification words it: scan the bit positions
    upwards from [i] and return the mask of the first one that is set in
    [M]; [n] positions remain to be looked at. *)
Fixpoint scan_from (M : Z) (i : Z) (n : nat) : Z :=
  match n with
  | O => 0
  | S n' => if Z.testbit M i then 2 ^ i else scan_from M (i + 1) n'
  end.

Definition LowestSetBit (M : Z) : Z := scan_from M 0 (Z.to_nat bits).

(** How many of the [n] bit positions from [i] upwards are set in [x]. *)
Fixpoint count_from (x : Z) (i : Z) (n : nat) : nat :=
  match n with
  | O => O
  | S n' => ((if Z.testbit x i then 1 else 0) + count_from x (i + 1) n')%nat
  end.

(** The number of bits set in a [DWORD_PTR]. *)
Definition bits_set (x : Z) : nat := count_from x 0 (Z.to_nat bits).

End PointerWidth.

(** ** Text

    A [string] stands for the characters of a C string.  [format_s fmt arg]
    is what [printf]-style formatting makes of a format with one [%s]
    conversion: the first [%s] is replaced by [arg].  The two formats of
    this program have no other conversion. *)

Local Open Scope string_scope.

Fixpoint format_s (fmt arg : string) : string :=
  match fmt with
  | EmptyString => EmptyString
  | String c rest =>
      match c, rest with
      | "%"%char, String "s"%char rest' => arg ++ rest'
      | _, _ => String c (format_s rest arg)
      end
  end.

(** [starts_with p s]: [p] is a prefix of [s]. *)
Fixpoint starts_with (p s : string) : bool :=
  match p, s with
  | EmptyString, _ => true
  | String a p', String b s' => Ascii.eqb a b && starts_with p' s'
  | String _ _, EmptyString => false
  end.

(** [mentions s needle]: [needle] occurs in [s] as a contiguous substring. *)
Fixpoint mentions (s needle : string) : bool :=
  starts_with needle s ||
  match s with
  | EmptyString => false
  | String _ s' => mentions s' needle
  end.

(** ** The process and its collaborators

    The code talks to the host's command line, to two Win32 calls and to
    the plugin's logger.  A [World] holds what they answer and records, in
    [trace], what the code asked of them, in order. *)

(** Modelled from the spec: [LogLevel], declared in the missing [Logger.h];
    the two levels the plugin logs at. *)
Inductive LogLevel : Type := Info | Error.

(** What can be thrown.  [ResultException what] is a [wil::ResultException],
    the exception [THROW_IF_WIN32_BOOL_FALSE] throws, with the text its
    [what()] returns; [OtherException] is an exception of any class outside
    that family. *)
Inductive exn : Type :=
| ResultException (what : string)
| OtherException (what : string).

(** The calls that leave the plugin, as the trace records them. *)
Inductive Event : Type :=
| CallIsSwitchPresent (name : string) (caseSensitive : bool)
| CallGetProcessAffinityMask
| CallSetProcessAffinityMask (mask : Z)
| LogLine (level : LogLevel) (line : string).

(** The host's command line, [cIGZCmdLine]:
    [bool IsSwitchPresent(name, value, caseSensitive)] answers whether the
    switch is there and leaves its value in [value], an in-out argument:
    the function maps the name, the value passed in and the flag to the
    answer and the value passed back. *)
Record cIGZCmdLine : Type := {
  IsSwitchPresent : string -> string -> bool -> bool * string
}.

Record World : Type := {
  (** [RZGetFramework()->CommandLine()] *)
  CommandLine : cIGZCmdLine;
  (** the affinity mask of the process and that of the system *)
  processAffinity : Z;
  systemAffinity : Z;
  (** [None]: [GetProcessAffinityMask] succeeds; [Some d]: it returns
      [FALSE], and [d] is the diagnostic text of the failure *)
  query_failure : option string;
  (** the same for [SetProcessAffinityMask], by the mask it is given *)
  set_failure : Z -> option string;
  (** [None]: the logger writes the line; [Some e]: it throws [e] *)
  logger_fault : LogLevel -> string -> option exn;
  trace : list Event
}.

Definition record (ev : Event) (w : World) : World :=
  {| CommandLine := CommandLine w;
     processAffinity := processAffinity w;
     systemAffinity := systemAffinity w;
     query_failure := query_failure w;
     set_failure := set_failure w;
     logger_fault := logger_fault w;
     trace := trace w ++ [ev] |}.

Definition set_processAffinity (mask : Z) (w : World) : World :=
  {| CommandLine := CommandLine w;
     processAffinity := mask;
     systemAffinity := systemAffinity w;
     query_failure := query_failure w;
     set_failure := set_failure w;
     logger_fault := logger_fault w;
     trace := trace w |}.

(** ** Computations: state and exceptions *)

Inductive Outcome (A : Type) : Type :=
| Returned (a : A)
| Thrown (e : exn).
Arguments Returned {A} a.
Arguments Thrown {A} e.

Definition M (A : Type) : Type := World -> Outcome A * World.

Definition ret {A : Type} (a : A) : M A := fun w => (Returned a, w).

Definition throw {A : Type} (e : exn) : M A := fun w => (Thrown e, w).

Definition bind {A B : Type} (c : M A) (k : A -> M B) : M B :=
  fun w =>
    match c w with
    | (Returned a, w') => k a w'
    | (Thrown e, w') => (Thrown e, w')
    end.

Notation "x <- c1 ;; c2" := (bind c1 (fun x => c2))
  (at level 61, c1 at next level, right associativity).
Notation "' pat <- c1 ;; c2" := (bind c1 (fun x => match x with pat => c2 end))
  (at level 61, pat pattern, c1 at next level, right associativity).
Notation "c1 ;; c2" := (bind c1 (fun _ => c2))
  (at level 61, right associativity).

(** [try { body } catch (const wil::ResultException& e) { handler }]:
    an exception of another class is not caught. *)
Definition try_catch_ResultException {A : Type}
    (body : M A) (handler : string -> M A) : M A :=
  fun w =>
    match body w with
    | (Thrown (ResultException what), w') => handler what w'
    | r => r
    end.

(** ** Win32 *)

Inductive HANDLE : Type := CurrentProcessPseudoHandle.

Inductive Win32Result (A : Type) : Type :=
| TRUE_with (a : A)
| FALSE_with (diagnostic : string).
Arguments TRUE_with {A} a.
Arguments FALSE_with {A} diagnostic.

Definition GetCurrentProcess : M HANDLE := ret CurrentProcessPseudoHandle.

(** [GetProcessAffinityMask(hProcess, &processAffinityMask, &systemAffinityMask)] *)
Definition GetProcessAffinityMask (hProcess : HANDLE) : M (Win32Result (Z * Z)) :=
  fun w =>
    let w' := record CallGetProcessAffinityMask w in
    match query_failure w with
    | Some d => (Returned (FALSE_with d), w')
    | None => (Returned (TRUE_with (processAffinity w, systemAffinity w)), w')
    end.

(** [SetProcessAffinityMask(hProcess, mask)]: a call that fails leaves the
    affinity of the process as it was. *)
Definition SetProcessAffinityMask (hProcess : HANDLE) (mask : Z) : M (Win32Result unit) :=
  fun w =>
    let w' := record (CallSetProcessAffinityMask mask) w in
    match set_failure w mask with
    | Some d => (Returned (FALSE_with d), w')
    | None => (Returned (TRUE_with tt), set_processAffinity mask w')
    end.

(** [THROW_IF_WIN32_BOOL_FALSE(call)] *)
Definition THROW_IF_WIN32_BOOL_FALSE {A : Type} (call : M (Win32Result A)) : M A :=
  r <- call ;;
  match r with
  | TRUE_with a => ret a
  | FALSE_with d => throw (ResultException d)
  end.

(** ** The logger *)

(** Modelled from the spec: [Logger] ([Logger.h] is not among the sources).
    The log sink accepts leveled text lines; a line it accepts is recorded
    in the trace.  [WriteLineFormatted] formats and writes one line. *)
Definition WriteLine (level : LogLevel) (message : string) : M unit :=
  fun w =>
    match logger_fault w level message with
    | Some e => (Thrown e, w)
    | None => (Returned tt, record (LogLine level message) w)
    end.

(** Modelled from the spec: [Logger::WriteLineFormatted], of the same
    missing [Logger.h]: one line, the format with its [%s] filled in. *)
Definition WriteLineFormatted (level : LogLevel) (format arg : string) : M unit :=
  WriteLine level (format_s format arg).

(** ** The plugin *)

Section Plugin.

Variable bits : Z.

(** [ConfigureForSingleCPU], line 50. *)
Definition ConfigureForSingleCPU : M unit :=
  try_catch_ResultException
    (hProcess <- GetCurrentProcess ;;
     ' (processAffinityMask, systemAffinityMask) <-
        THROW_IF_WIN32_BOOL_FALSE (GetProcessAffinityMask hProcess) ;;
     let firstLogicalProcessor := GetLowestSetBitMask bits systemAffinityMask in
     THROW_IF_WIN32_BOOL_FALSE (SetProcessAffinityMask hProcess firstLogicalProcessor) ;;
     WriteLine Info "Configured the game to use 1 CPU core.")
    (fun what =>
       WriteLineFormatted Error
         "An OS error occurred when configuring the game to use 1 CPU: %s." what).

(** [pCmdLine->IsSwitchPresent(name, value, caseSensitive)] *)
Definition call_IsSwitchPresent (name value : string) (caseSensitive : bool)
  : M (bool * string) :=
  fun w =>
    (Returned (IsSwitchPresent (CommandLine w) name value caseSensitive),
     record (CallIsSwitchPresent name caseSensitive) w).

(** [SingleCPUDllDirector::OnStart], line 106. *)
Definition OnStart : M bool :=
  let value := "" in
  ' (present, value) <- call_IsSwitchPresent "CPUCount" value true ;;
  (if present : bool then
     WriteLineFormatted Info
       "Skipped because the command line contains -CPUCount:%s." value
   else
     ConfigureForSingleCPU) ;;
  ret true.

End Plugin.

(** ** A command line to run the model on

    A list of switches with their values; the first switch of the name
    answers.  Without [caseSensitive] the names are compared with their
    letters in lower case. *)

Definition lower_ascii (c : ascii) : ascii :=
  let n := nat_of_ascii c in
  if (65 <=? n)%nat && (n <=? 90)%nat then ascii_of_nat (n + 32) else c.

Fixpoint lower (s : string) : string :=
  match s with
  | EmptyString => EmptyString
  | String c s' => String (lower_ascii c) (lower s')
  end.

Definition same_switch (caseSensitive : bool) (a b : string) : bool :=
  if caseSensitive then String.eqb a b else String.eqb (lower a) (lower b).

Fixpoint find_switch (switches : list (string * string)) (name : string)
    (caseSensitive : bool) : option string :=
  match switches with
  | [] => None
  | (n, v) :: rest =>
      if same_switch caseSensitive n name then Some v
      else find_switch rest name caseSensitive
  end.

Definition cmdline_of (switches : list (string * string)) : cIGZCmdLine :=
  {| IsSwitchPresent := fun name value caseSensitive =>
       match find_switch switches name caseSensitive with
       | Some v => (true, v)
       | None => (false, value)
       end |}.

(** A world at start-up: nothing asked yet, a logger that writes. *)
Definition start_world (switches : list (string * string))
    (processMask systemMask : Z)
    (queryFailure : option string) (setFailure : Z -> option string) : World :=
  {| CommandLine := cmdline_of switches;
     processAffinity := processMask;
     systemAffinity := systemMask;
     query_failure := queryFailure;
     set_failure := setFailure;
     logger_fault := fun _ _ => None;
     trace := [] |}.

(** The same world with [events] in its trace. *)
Definition start_world_after (switches : list (string * string))
    (processMask systemMask : Z) (events : list Event) : World :=
  {| CommandLine := cmdline_of switches;
     processAffinity := processMask;
     systemAffinity := systemMask;
     query_failure := None;
     set_failure := fun _ => None;
     logger_fault := fun _ _ => None;
     trace := events |}.

(** ** Reading a trace *)

Definition is_affinity_call (ev : Event) : bool :=
  match ev with
  | CallGetProcessAffinityMask | CallSetProcessAffinityMask _ => true
  | _ => false
  end.

Definition affinity_calls (t : list Event) : list Event := filter is_affinity_call t.

Fixpoint log_lines (t : list Event) : list (LogLevel * string) :=
  match t with
  | [] => []
  | LogLine level line :: t' => (level, line) :: log_lines t'
  | _ :: t' => log_lines t'
  end.

Fixpoint set_masks (t : list Event) : list Z :=
  match t with
  | [] => []
  | CallSetProcessAffinityMask mask :: t' => mask :: set_masks t'
  | _ :: t' => set_masks t'
  end.

(** The three lines the plugin writes. *)
Definition skipped_line (value : string) : string :=
  "Skipped because the command line contains -CPUCount:" ++ value ++ ".".

Definition configured_line : string := "Configured the game to use 1 CPU core.".

Definition os_error_line (what : string) : string :=
  "An OS error occurred when configuring the game to use 1 CPU: " ++ what ++ ".".

(** The world once [OnStart] has asked the command line for [CPUCount]. *)
Definition asked (w : World) : World :=
  record (CallIsSwitchPresent "CPUCount" true) w.

(** The logger of [w] writes every line it is given. *)
Definition logger_writes (w : World) : Prop :=
  forall level line, logger_fault w level line = None.

Local Open Scope list_scope.
Local Open Scope Z_scope.

(** * Properties *)

(** ** Runs on concrete inputs *)

Example lowest_0110 : GetLowestSetBitMask 32 6 = 2.
Proof. reflexivity. Qed.

Example lowest_1001 : GetLowestSetBitMask 32 9 = 1.
Proof. reflexivity. Qed.

Example lowest_1000 : GetLowestSetBitMask 32 8 = 8.
Proof. reflexivity. Qed.

Example lowest_15 : GetLowestSetBitMask 64 15 = 1.
Proof. reflexivity. Qed.

Example lowest_top_bit : GetLowestSetBitMask 32 (2 ^ 31) = 2 ^ 31.
Proof. reflexivity. Qed.

Example scan_0110 : LowestSetBit 32 6 = 2.
Proof. reflexivity. Qed.

Example scan_zero : LowestSetBit 32 0 = 0.
Proof. reflexivity. Qed.

Example run_1010 :
  trace (snd (OnStart 32 (start_world [] 10 10 None (fun _ => None))))
  = [CallIsSwitchPresent "CPUCount" true;
     CallGetProcessAffinityMask;
     CallSetProcessAffinityMask 2;
     LogLine Info "Configured the game to use 1 CPU core."].
Proof. reflexivity. Qed.

Example run_switch_present :
  OnStart 32 (start_world [("CPUCount", "4")] 15 15 None (fun _ => None))
  = (Returned true,
     start_world_after [("CPUCount", "4")] 15 15
       [CallIsSwitchPresent "CPUCount" true;
        LogLine Info "Skipped because the command line contains -CPUCount:4."]).
Proof. reflexivity. Qed.

Example run_switch_other_case :
  trace (snd (OnStart 32 (start_world [("cpucount", "4")] 15 15 None (fun _ => None))))
  = [CallIsSwitchPresent "CPUCount" true;
     CallGetProcessAffinityMask;
     CallSetProcessAffinityMask 1;
     LogLine Info "Configured the game to use 1 CPU core."].
Proof. reflexivity. Qed.

Example run_query_fails :
  trace (snd (OnStart 32 (start_world [] 15 15 (Some "Access is denied") (fun _ => None))))
  = [CallIsSwitchPresent "CPUCount" true;
     CallGetProcessAffinityMask;
     LogLine Error
       "An OS error occurred when configuring the game to use 1 CPU: Access is denied."].
Proof. reflexivity. Qed.

Example run_set_fails :
  let w := snd (OnStart 32 (start_world [] 12 12 None (fun _ => Some "Invalid parameter"))) in
  trace w
  = [CallIsSwitchPresent "CPUCount" true;
     CallGetProcessAffinityMask;
     CallSetProcessAffinityMask 4;
     LogLine Error
       "An OS error occurred when configuring the game to use 1 CPU: Invalid parameter."] /\
  processAffinity w = 12.
Proof. split; reflexivity. Qed.

(** ** Arithmetic of the pointer-sized types *)

Section PointerWidthFacts.

Variable bits : Z.
Hypothesis bits_pos : 0 < bits.

Lemma modulus_pos : 0 < modulus bits.
Proof. unfold modulus. apply Z.pow_pos_nonneg; lia. Qed.

Lemma to_uintptr_small (x : Z) : is_DWORD_PTR bits x -> to_uintptr bits x = x.
Proof. intros Hx. unfold to_uintptr. apply Z.mod_small. exact Hx. Qed.

(** Converting to the signed type and back changes nothing modulo [2^bits]. *)
Lemma to_uintptr_to_intptr (x : Z) :
  to_uintptr bits (to_intptr bits x) = x mod modulus bits.
Proof.
  pose proof modulus_pos as Hm.
  unfold to_uintptr, to_intptr. cbv zeta.
  destruct (x mod modulus bits <? half_modulus bits).
  - apply Z.mod_mod. lia.
  - replace (x mod modulus bits - modulus bits)
      with (x mod modulus bits + (-1) * modulus bits) by ring.
    rewrite Z.mod_add by lia. apply Z.mod_mod. lia.
Qed.

Lemma to_intptr_congr (x : Z) :
  (- to_intptr bits x) mod modulus bits = (- x) mod modulus bits.
Proof.
  pose proof modulus_pos as Hm.
  pose proof (Z.div_mod x (modulus bits) ltac:(lia)) as Hx.
  unfold to_intptr. cbv zeta.
  destruct (x mod modulus bits <? half_modulus bits).
  - replace (- (x mod modulus bits))
      with (- x + (x / modulus bits) * modulus bits) by lia.
    apply Z.mod_add. lia.
  - replace (- (x mod modulus bits - modulus bits))
      with (- x + (x / modulus bits + 1) * modulus bits) by lia.
    apply Z.mod_add. lia.
Qed.

(** The negated operand, once converted for [&], is [-value] modulo [2^bits]. *)
Lemma negated_operand (value : Z) :
  to_uintptr bits (neg_intptr bits (to_intptr bits value)) = (- value) mod modulus bits.
Proof.
  unfold neg_intptr. rewrite to_uintptr_to_intptr. apply to_intptr_congr.
Qed.

End PointerWidthFacts.

(** ** The lowest set bit of a positive number *)

(** Every positive number is an odd number times a power of two. *)
Lemma odd_times_pow2 (p : positive) :
  exists k m : Z, 0 <= k /\ 0 <= m /\ Z.pos p = (2 * m + 1) * 2 ^ k.
Proof.
  induction p as [p _ | p IH | ].
  - exists 0, (Z.pos p). repeat split; try lia.
  - destruct IH as (k & m & Hk & Hm & E).
    exists (k + 1), m. repeat split; try lia.
    rewrite Z.pow_add_r by lia. change (2 ^ 1) with 2.
    rewrite Pos2Z.inj_xO, E. ring.
  - exists 0, 0. repeat split; lia.
Qed.

Lemma land_odd_opp (m : Z) : Z.land (2 * m + 1) (- (2 * m + 1)) = 1.
Proof.
  replace (- (2 * m + 1)) with (2 * Z.lnot m + 1)
    by (rewrite Z.lnot_eq_pred_opp; ring).
  apply Z.bits_inj'. intros n Hn.
  rewrite Z.land_spec.
  destruct (Z.eq_dec n 0) as [-> | Hne].
  - rewrite !Z.testbit_odd_0. reflexivity.
  - replace n with (Z.succ (n - 1)) by lia.
    rewrite !Z.testbit_odd_succ by lia.
    rewrite Z.lnot_spec by lia.
    change 1 with (2 * 0 + 1). rewrite Z.testbit_odd_succ by lia.
    rewrite Z.bits_0. apply andb_negb_r.
Qed.

Lemma land_opp_pow2 (m k : Z) :
  0 <= k -> Z.land ((2 * m + 1) * 2 ^ k) (- ((2 * m + 1) * 2 ^ k)) = 2 ^ k.
Proof.
  intros Hk.
  rewrite <- Z.mul_opp_l.
  rewrite <- !Z.shiftl_mul_pow2 by lia.
  rewrite <- Z.shiftl_land, land_odd_opp.
  rewrite Z.shiftl_mul_pow2 by lia. ring.
Qed.

(** [mask & (-mask)] over the integers: the power of two at the position
    of the lowest set bit. *)
Lemma land_opp_lowest (M : Z) :
  0 < M ->
  exists k : Z,
    0 <= k /\ Z.land M (- M) = 2 ^ k /\ 2 ^ k <= M /\
    Z.testbit M k = true /\
    (forall j : Z, j < k -> Z.testbit M j = false).
Proof.
  intros HM. destruct M as [ | p | p]; try lia.
  destruct (odd_times_pow2 p) as (k & m & Hk & Hm & E).
  exists k. rewrite E. split; [exact Hk | ].
  split; [apply land_opp_pow2; exact Hk | ].
  split.
  - assert (0 < 2 ^ k) by (apply Z.pow_pos_nonneg; lia). nia.
  - split.
    + rewrite Z.mul_pow2_bits by lia. rewrite Z.sub_diag. apply Z.testbit_odd_0.
    + intros j Hj. apply Z.mul_pow2_bits_low. exact Hj.
Qed.

Lemma land_opp_bounds (M : Z) : 0 <= M -> 0 <= Z.land M (- M) <= M.
Proof.
  intros HM. destruct (Z.eq_dec M 0) as [-> | Hne].
  - cbn. lia.
  - destruct (land_opp_lowest M) as (k & Hk & E & Hle & _); [lia | ].
    rewrite E. split; [apply Z.pow_nonneg; lia | exact Hle].
Qed.

(** ** [GetLowestSetBitMask] *)

Section Selection.

Variable bits : Z.
Hypothesis bits_pos : 0 < bits.

(** On a [DWORD_PTR] the function is [mask & (-mask)] over the integers. *)
Lemma GetLowestSetBitMask_land_opp (M : Z) :
  is_DWORD_PTR bits M -> GetLowestSetBitMask bits M = Z.land M (- M).
Proof.
  intros HM. pose proof (modulus_pos bits bits_pos) as Hm.
  unfold GetLowestSetBitMask, and_uintptr_intptr.
  rewrite negated_operand by exact bits_pos.
  rewrite (to_uintptr_small bits M HM).
  unfold to_uintptr, modulus.
  rewrite <- !Z.land_ones by lia.
  rewrite Z.land_assoc, <- Z.land_assoc, Z.land_diag.
  rewrite Z.land_ones by lia.
  apply Z.mod_small.
  pose proof (land_opp_bounds M (proj1 HM)) as Hb.
  unfold is_DWORD_PTR, modulus in HM. lia.
Qed.

Lemma GetLowestSetBitMask_zero : GetLowestSetBitMask bits 0 = 0.
Proof.
  rewrite GetLowestSetBitMask_land_opp; [reflexivity | ].
  pose proof (modulus_pos bits bits_pos). unfold is_DWORD_PTR. lia.
Qed.

(** The result at a non-zero mask. *)
Lemma GetLowestSetBitMask_lowest (M : Z) :
  is_DWORD_PTR bits M -> M <> 0 ->
  exists k : Z,
    0 <= k < bits /\ GetLowestSetBitMask bits M = 2 ^ k /\
    Z.testbit M k = true /\
    (forall j : Z, 0 <= j < k -> Z.testbit M j = false).
Proof.
  intros HM Hne.
  destruct (land_opp_lowest M) as (k & Hk & E & Hle & Hbit & Hlow).
  { unfold is_DWORD_PTR in HM. lia. }
  exists k. rewrite (GetLowestSetBitMask_land_opp M HM).
  repeat split; trivial.
  - unfold is_DWORD_PTR, modulus in HM.
    apply (Z.pow_lt_mono_r_iff 2); lia.
  - intros j Hj. apply Hlow. lia.
Qed.

(** The result is a [DWORD_PTR] below or at the mask, with no bit outside it. *)
Lemma GetLowestSetBitMask_within (M : Z) :
  is_DWORD_PTR bits M ->
  Z.land (GetLowestSetBitMask bits M) M = GetLowestSetBitMask bits M /\
  0 <= GetLowestSetBitMask bits M <= M.
Proof.
  intros HM. rewrite (GetLowestSetBitMask_land_opp M HM). split.
  - rewrite (Z.land_comm M (- M)), <- Z.land_assoc, Z.land_diag. reflexivity.
  - apply land_opp_bounds. exact (proj1 HM).
Qed.

End Selection.

(** ** The scan of the specification and the count of set bits *)

Lemma scan_from_none (M : Z) (n : nat) (i : Z) :
  (forall j : Z, i <= j -> Z.testbit M j = false) -> scan_from M i n = 0.
Proof.
  revert i. induction n as [ | n IH]; intros i Hnone; cbn.
  - reflexivity.
  - rewrite Hnone by lia. apply IH. intros j Hj. apply Hnone. lia.
Qed.

Lemma scan_from_first (M k : Z) (n : nat) (i : Z) :
  i <= k < i + Z.of_nat n ->
  Z.testbit M k = true ->
  (forall j : Z, i <= j < k -> Z.testbit M j = false) ->
  scan_from M i n = 2 ^ k.
Proof.
  revert i. induction n as [ | n IH]; intros i Hik Hk Hlow.
  - lia.
  - cbn [scan_from]. destruct (Z.eq_dec i k) as [-> | Hne].
    + rewrite Hk. reflexivity.
    + rewrite Hlow by lia. apply IH; trivial.
      * lia.
      * intros j Hj. apply Hlow. lia.
Qed.

Lemma count_from_pow2 (k : Z) (n : nat) (i : Z) :
  0 <= k ->
  count_from (2 ^ k) i n =
  if (i <=? k) && (k <? i + Z.of_nat n) then 1%nat else 0%nat.
Proof.
  intros Hk. revert i. induction n as [ | n IH]; intros i.
  - cbn [count_from].
    destruct (i <=? k) eqn:E1, (k <? i + Z.of_nat 0) eqn:E2; trivial.
    apply Z.leb_le in E1. apply Z.ltb_lt in E2. lia.
  - cbn [count_from]. rewrite IH, Z.pow2_bits_eqb by exact Hk.
    destruct (k =? i) eqn:E0, (i + 1 <=? k) eqn:E1, (k <? i + 1 + Z.of_nat n) eqn:E2,
             (i <=? k) eqn:E3, (k <? i + Z.of_nat (S n)) eqn:E4; cbn; trivial;
      repeat match goal with
             | H : (_ =? _) = true |- _ => apply Z.eqb_eq in H
             | H : (_ =? _) = false |- _ => apply Z.eqb_neq in H
             | H : (_ <=? _) = true |- _ => apply Z.leb_le in H
             | H : (_ <=? _) = false |- _ => apply Z.leb_gt in H
             | H : (_ <? _) = true |- _ => apply Z.ltb_lt in H
             | H : (_ <? _) = false |- _ => apply Z.ltb_ge in H
             end; lia.
Qed.

Lemma bits_set_pow2 (bits k : Z) : 0 <= k < bits -> bits_set bits (2 ^ k) = 1%nat.
Proof.
  intros Hk. unfold bits_set. rewrite count_from_pow2 by lia.
  rewrite Z2Nat.id by lia.
  replace (0 <=? k) with true by (symmetry; apply Z.leb_le; lia).
  replace (k <? 0 + bits) with true by (symmetry; apply Z.ltb_lt; lia).
  reflexivity.
Qed.

(** The function of the source computes what the scan of the specification
    computes. *)
Lemma GetLowestSetBitMask_LowestSetBit (bits M : Z) :
  0 < bits -> is_DWORD_PTR bits M ->
  GetLowestSetBitMask bits M = LowestSetBit bits M.
Proof.
  intros Hb HM. unfold LowestSetBit.
  destruct (Z.eq_dec M 0) as [-> | Hne].
  - rewrite GetLowestSetBitMask_zero by exact Hb.
    symmetry. apply scan_from_none. intros j _. apply Z.bits_0.
  - destruct (GetLowestSetBitMask_lowest bits Hb M HM Hne) as (k & Hk & E & Hbit & Hlow).
    rewrite E. symmetry. apply (scan_from_first M k); trivial.
    rewrite Z2Nat.id; lia.
Qed.

(** ** Lowest-bit selection *)

(** C1.  For every non-zero mask [M] of the pointer-sized type,
    [GetLowestSetBitMask M] has exactly one bit set, at a position [k] where
    [M] has a bit set and below which [M] has none; it is [M & (-M)] over the
    integers, and it is what the scan of the specification finds. *)
Theorem GetLowestSetBitMask_correct (bits M : Z) :
  0 < bits -> is_DWORD_PTR bits M -> M <> 0 ->
  exists k : Z,
    0 <= k < bits /\
    GetLowestSetBitMask bits M = 2 ^ k /\
    bits_set bits (GetLowestSetBitMask bits M) = 1%nat /\
    Z.testbit M k = true /\
    (forall j : Z, 0 <= j < k -> Z.testbit M j = false) /\
    GetLowestSetBitMask bits M = Z.land M (- M) /\
    GetLowestSetBitMask bits M = LowestSetBit bits M.
Proof.
  intros Hb HM Hne.
  destruct (GetLowestSetBitMask_lowest bits Hb M HM Hne) as (k & Hk & E & Hbit & Hlow).
  exists k. split; [exact Hk | ]. split; [exact E | ].
  split; [rewrite E; apply bits_set_pow2; exact Hk | ].
  split; [exact Hbit | ]. split; [exact Hlow | ].
  split.
  - apply GetLowestSetBitMask_land_opp; assumption.
  - apply GetLowestSetBitMask_LowestSetBit; assumption.
Qed.

Lemma GetLowestSetBitMask_correct_at_6 :
  exists k : Z,
    0 <= k < 32 /\
    GetLowestSetBitMask 32 6 = 2 ^ k /\
    bits_set 32 (GetLowestSetBitMask 32 6) = 1%nat /\
    Z.testbit 6 k = true /\
    (forall j : Z, 0 <= j < k -> Z.testbit 6 j = false) /\
    GetLowestSetBitMask 32 6 = Z.land 6 (- 6) /\
    GetLowestSetBitMask 32 6 = LowestSetBit 32 6.
Proof.
  apply (GetLowestSetBitMask_correct 32 6).
  - lia.
  - unfold is_DWORD_PTR, modulus. simpl. lia.
  - lia.
Defined.

(** C10.  For every mask [M] of the pointer-sized type, zero and the mask
    of the topmost bit included, the result has no bit outside [M] and is
    not above [M].  At the topmost bit the signed negation wraps around to
    the operand itself, and the result is that bit. *)
Theorem GetLowestSetBitMask_subset_le (bits M : Z) :
  0 < bits -> is_DWORD_PTR bits M ->
  Z.land (GetLowestSetBitMask bits M) M = GetLowestSetBitMask bits M /\
  GetLowestSetBitMask bits M <= M /\
  GetLowestSetBitMask bits 0 = 0 /\
  neg_intptr bits (to_intptr bits (half_modulus bits)) = to_intptr bits (half_modulus bits) /\
  GetLowestSetBitMask bits (half_modulus bits) = half_modulus bits.
Proof.
  intros Hb HM.
  destruct (GetLowestSetBitMask_within bits Hb M HM) as (Hsub & _ & Hle).
  split; [exact Hsub | ]. split; [exact Hle | ].
  split; [apply GetLowestSetBitMask_zero; exact Hb | ].
  assert (Hpow : modulus bits = 2 * half_modulus bits).
  { unfold modulus, half_modulus.
    replace bits with (1 + (bits - 1)) at 1 by ring.
    rewrite Z.pow_add_r by lia. reflexivity. }
  assert (Hhalf : 0 < half_modulus bits).
  { unfold half_modulus. apply Z.pow_pos_nonneg; lia. }
  assert (Htop : to_intptr bits (half_modulus bits) = - half_modulus bits).
  { unfold to_intptr. cbv zeta.
    rewrite Z.mod_small by lia. rewrite Z.ltb_irrefl. lia. }
  split.
  - unfold neg_intptr. rewrite Htop, Z.opp_involutive. exact Htop.
  - rewrite GetLowestSetBitMask_land_opp.
    + unfold half_modulus.
      replace (2 ^ (bits - 1)) with ((2 * 0 + 1) * 2 ^ (bits - 1)) at 1 2 by ring.
      apply land_opp_pow2. lia.
    + exact Hb.
    + unfold is_DWORD_PTR. lia.
Qed.

Lemma GetLowestSetBitMask_subset_le_at_top :
  Z.land (GetLowestSetBitMask 32 2147483648) 2147483648 = GetLowestSetBitMask 32 2147483648 /\
  GetLowestSetBitMask 32 2147483648 <= 2147483648 /\
  GetLowestSetBitMask 32 0 = 0 /\
  neg_intptr 32 (to_intptr 32 (half_modulus 32)) = to_intptr 32 (half_modulus 32) /\
  GetLowestSetBitMask 32 (half_modulus 32) = half_modulus 32.
Proof.
  apply (GetLowestSetBitMask_subset_le 32 2147483648).
  - lia.
  - unfold is_DWORD_PTR, modulus. simpl. lia.
Defined.

(** ** Text *)

Lemma format_skipped (value : string) :
  format_s "Skipped because the command line contains -CPUCount:%s." value
  = skipped_line value.
Proof. reflexivity. Qed.

Lemma format_os_error (what : string) :
  format_s "An OS error occurred when configuring the game to use 1 CPU: %s." what
  = os_error_line what.
Proof. reflexivity. Qed.

Lemma starts_with_app (p s : string) : starts_with p (p ++ s)%string = true.
Proof.
  induction p as [ | c p IH]; cbn.
  - reflexivity.
  - rewrite Ascii.eqb_refl. exact IH.
Qed.

Lemma mentions_at_start (s needle : string) :
  starts_with needle s = true -> mentions s needle = true.
Proof. intros H. destruct s; cbn [mentions]; rewrite H; reflexivity. Qed.

Lemma mentions_app (a needle b : string) :
  mentions (a ++ needle ++ b)%string needle = true.
Proof.
  induction a as [ | c a IH].
  - change ("" ++ needle ++ b)%string with (needle ++ b)%string.
    apply mentions_at_start. apply starts_with_app.
  - cbn [append mentions]. rewrite IH. apply orb_true_r.
Qed.

Lemma skipped_line_mentions (value : string) :
  mentions (skipped_line value) value = true.
Proof. apply mentions_app. Qed.

Lemma os_error_line_mentions (what : string) :
  mentions (os_error_line what) what = true.
Proof. apply mentions_app. Qed.

(** ** Traces *)

Lemma log_lines_app (t u : list Event) : log_lines (t ++ u) = log_lines t ++ log_lines u.
Proof.
  induction t as [ | ev t IH]; [reflexivity | ].
  destruct ev; cbn; rewrite IH; reflexivity.
Qed.

Lemma set_masks_app (t u : list Event) : set_masks (t ++ u) = set_masks t ++ set_masks u.
Proof.
  induction t as [ | ev t IH]; [reflexivity | ].
  destruct ev; cbn; rewrite IH; reflexivity.
Qed.

(** ** The runs of [ConfigureForSingleCPU] *)

(** The events a run has added to the trace, read off the final world. *)
Ltac close_trace :=
  unfold ret;
  cbn [snd trace record set_processAffinity processAffinity];
  rewrite <- ?app_assoc;
  solve [ exists []; repeat split | eexists [_]; repeat split ].

(** Case analysis on what the logger of [w] does with the line at hand. *)
Ltac case_logger w :=
  match goal with
  | |- context [logger_fault w ?level ?line] =>
      destruct (logger_fault w level line) as [[? | ?] | ]
  end.

Section Runs.

Variable bits : Z.

(** The query fails: the handler writes the error line. *)
Lemma Configure_query_fails (w : World) (d : string) :
  query_failure w = Some d ->
  logger_fault w Error (os_error_line d) = None ->
  ConfigureForSingleCPU bits w
  = (Returned tt,
     record (LogLine Error (os_error_line d)) (record CallGetProcessAffinityMask w)).
Proof.
  intros Hq Hl.
  unfold ConfigureForSingleCPU, try_catch_ResultException, bind,
    THROW_IF_WIN32_BOOL_FALSE, GetProcessAffinityMask, GetCurrentProcess, ret, throw, bind.
  rewrite Hq.
  unfold WriteLineFormatted, WriteLine. rewrite format_os_error.
  cbn [logger_fault record]. rewrite Hl. reflexivity.
Qed.

(** The query succeeds and the set fails: the handler writes the error
    line, the affinity of the process stays as it was. *)
Lemma Configure_set_fails (w : World) (d : string) :
  query_failure w = None ->
  set_failure w (GetLowestSetBitMask bits (systemAffinity w)) = Some d ->
  logger_fault w Error (os_error_line d) = None ->
  ConfigureForSingleCPU bits w
  = (Returned tt,
     record (LogLine Error (os_error_line d))
       (record (CallSetProcessAffinityMask (GetLowestSetBitMask bits (systemAffinity w)))
          (record CallGetProcessAffinityMask w))).
Proof.
  intros Hq Hs Hl.
  unfold ConfigureForSingleCPU, try_catch_ResultException, bind,
    THROW_IF_WIN32_BOOL_FALSE, GetProcessAffinityMask, SetProcessAffinityMask,
    GetCurrentProcess, ret, throw, bind.
  rewrite Hq. cbn [set_failure record]. rewrite Hs.
  unfold WriteLineFormatted, WriteLine. rewrite format_os_error.
  cbn [logger_fault record]. rewrite Hl. reflexivity.
Qed.

(** Both calls succeed; what the run becomes is what the logger does with
    the line of success. *)
Lemma Configure_set_succeeds (w : World) :
  query_failure w = None ->
  set_failure w (GetLowestSetBitMask bits (systemAffinity w)) = None ->
  ConfigureForSingleCPU bits w
  = let mask := GetLowestSetBitMask bits (systemAffinity w) in
    let w' := set_processAffinity mask
                (record (CallSetProcessAffinityMask mask)
                   (record CallGetProcessAffinityMask w)) in
    match logger_fault w Info configured_line with
    | None => (Returned tt, record (LogLine Info configured_line) w')
    | Some (ResultException what) =>
        WriteLineFormatted Error
          "An OS error occurred when configuring the game to use 1 CPU: %s." what w'
    | Some (OtherException what) => (Thrown (OtherException what), w')
    end.
Proof.
  intros Hq Hs.
  unfold ConfigureForSingleCPU, try_catch_ResultException, bind,
    THROW_IF_WIN32_BOOL_FALSE, GetProcessAffinityMask, SetProcessAffinityMask,
    GetCurrentProcess, ret, throw, bind.
  rewrite Hq. cbn [set_failure record]. rewrite Hs.
  unfold WriteLine. cbn [logger_fault record set_processAffinity]. cbv zeta.
  fold configured_line.
  destruct (logger_fault w Info configured_line) as [[what | what] | ]; reflexivity.
Qed.

Lemma Configure_applies (w : World) :
  query_failure w = None ->
  set_failure w (GetLowestSetBitMask bits (systemAffinity w)) = None ->
  logger_fault w Info configured_line = None ->
  ConfigureForSingleCPU bits w
  = (Returned tt,
     record (LogLine Info configured_line)
       (set_processAffinity (GetLowestSetBitMask bits (systemAffinity w))
          (record (CallSetProcessAffinityMask (GetLowestSetBitMask bits (systemAffinity w)))
             (record CallGetProcessAffinityMask w)))).
Proof.
  intros Hq Hs Hl. rewrite Configure_set_succeeds by assumption.
  cbv zeta. rewrite Hl. reflexivity.
Qed.

(** Whatever happens after it, a query that succeeds is followed by the set
    call with the lowest set bit of the system mask. *)
Lemma Configure_calls (w : World) :
  query_failure w = None ->
  exists rest : list Event,
    trace (snd (ConfigureForSingleCPU bits w))
    = trace w ++ CallGetProcessAffinityMask
        :: CallSetProcessAffinityMask (GetLowestSetBitMask bits (systemAffinity w))
        :: rest /\
    set_masks rest = [] /\ affinity_calls rest = [].
Proof.
  intros Hq.
  unfold ConfigureForSingleCPU, try_catch_ResultException, bind,
    THROW_IF_WIN32_BOOL_FALSE, GetProcessAffinityMask, SetProcessAffinityMask,
    GetCurrentProcess, ret, throw, bind.
  rewrite Hq. cbn [set_failure record].
  destruct (set_failure w (GetLowestSetBitMask bits (systemAffinity w))) as [d | ].
  - unfold WriteLineFormatted, WriteLine. cbn [logger_fault record].
    case_logger w; close_trace.
  - unfold WriteLine. cbn [logger_fault record set_processAffinity].
    case_logger w; [ | close_trace | close_trace].
    unfold WriteLineFormatted, WriteLine. cbn [logger_fault record set_processAffinity].
    case_logger w; close_trace.
Qed.

(** ** The runs of [OnStart] *)

(** The switch is there: the skip line, and nothing else. *)
Lemma OnStart_skips (w : World) (v : string) :
  IsSwitchPresent (CommandLine w) "CPUCount" "" true = (true, v) ->
  logger_fault w Info (skipped_line v) = None ->
  OnStart bits w = (Returned true, record (LogLine Info (skipped_line v)) (asked w)).
Proof.
  intros Hp Hl.
  unfold OnStart, call_IsSwitchPresent, bind. cbv zeta. rewrite Hp.
  unfold WriteLineFormatted, WriteLine. rewrite format_skipped.
  cbn [logger_fault record asked]. rewrite Hl. reflexivity.
Qed.

(** The switch is there: no call to the affinity functions, whatever the
    logger does. *)
Lemma OnStart_skips_trace (w : World) (v : string) :
  IsSwitchPresent (CommandLine w) "CPUCount" "" true = (true, v) ->
  exists rest : list Event,
    trace (snd (OnStart bits w)) = trace w ++ CallIsSwitchPresent "CPUCount" true :: rest /\
    affinity_calls rest = [] /\
    processAffinity (snd (OnStart bits w)) = processAffinity w.
Proof.
  intros Hp.
  unfold OnStart, call_IsSwitchPresent, bind. cbv zeta. rewrite Hp.
  unfold WriteLineFormatted, WriteLine. cbn [logger_fault record].
  case_logger w; close_trace.
Qed.

(** The switch is not there: [OnStart] is [ConfigureForSingleCPU], run once
    the command line has been asked, and then [return true]. *)
Lemma OnStart_configures (w : World) (v : string) :
  IsSwitchPresent (CommandLine w) "CPUCount" "" true = (false, v) ->
  OnStart bits w
  = match ConfigureForSingleCPU bits (asked w) with
    | (Returned _, w') => (Returned true, w')
    | (Thrown e, w') => (Thrown e, w')
    end.
Proof.
  intros Hp.
  unfold OnStart, call_IsSwitchPresent, bind. cbv zeta. rewrite Hp.
  fold (asked w).
  destruct (ConfigureForSingleCPU bits (asked w)) as [[u | e] w']; reflexivity.
Qed.

End Runs.

Lemma Configure_asks_first (bits : Z) (w : World) :
  exists rest : list Event,
    trace (snd (ConfigureForSingleCPU bits w)) = trace w ++ CallGetProcessAffinityMask :: rest.
Proof.
  destruct (query_failure w) as [d | ] eqn:Hq.
  - unfold ConfigureForSingleCPU, try_catch_ResultException, bind,
      THROW_IF_WIN32_BOOL_FALSE, GetProcessAffinityMask, GetCurrentProcess, ret, throw, bind.
    rewrite Hq. unfold WriteLineFormatted, WriteLine. cbn [logger_fault record].
    case_logger w; cbn [snd trace record]; rewrite <- ?app_assoc;
      solve [ exists []; reflexivity | eexists [_]; reflexivity ].
  - destruct (Configure_calls bits w Hq) as (rest & E & _).
    eexists. exact E.
Qed.

Lemma count_from_zero (n : nat) (i : Z) : count_from 0 i n = 0%nat.
Proof.
  revert i. induction n as [ | n IH]; intros i; cbn [count_from].
  - reflexivity.
  - rewrite Z.bits_0, IH. reflexivity.
Qed.

(** ** Override precedence *)

(** C2.  When the command line has the switch [CPUCount], with any value
    [v], the empty one included, [OnStart] makes no call to the affinity
    functions and leaves the affinity of the process as it is; with a logger
    that writes, it returns [true] having logged the one line
    [Skipped because the command line contains -CPUCount:v.].  When the
    switch is not there, [OnStart] runs [ConfigureForSingleCPU].  In both
    cases the command line is asked before anything else happens. *)
Theorem OnStart_override_precedence (bits : Z) (w : World) (v : string) :
  (IsSwitchPresent (CommandLine w) "CPUCount" "" true = (true, v) ->
     (exists rest : list Event,
        trace (snd (OnStart bits w)) = trace w ++ CallIsSwitchPresent "CPUCount" true :: rest /\
        affinity_calls rest = [] /\
        processAffinity (snd (OnStart bits w)) = processAffinity w) /\
     (logger_fault w Info (skipped_line v) = None ->
        OnStart bits w = (Returned true, record (LogLine Info (skipped_line v)) (asked w)) /\
        log_lines (trace (snd (OnStart bits w)))
        = log_lines (trace w) ++ [(Info, skipped_line v)] /\
        skipped_line v
        = ("Skipped because the command line contains -CPUCount:" ++ v ++ ".")%string /\
        mentions (skipped_line v) v = true)) /\
  (IsSwitchPresent (CommandLine w) "CPUCount" "" true = (false, v) ->
     snd (OnStart bits w) = snd (ConfigureForSingleCPU bits (asked w)) /\
     exists rest : list Event,
       trace (snd (OnStart bits w))
       = trace w ++ CallIsSwitchPresent "CPUCount" true :: CallGetProcessAffinityMask :: rest).
Proof.
  split.
  - intros Hp. split.
    + apply (OnStart_skips_trace bits w v Hp).
    + intros Hl. rewrite (OnStart_skips bits w v Hp Hl).
      split; [reflexivity | ]. split.
      * cbn [snd trace record asked]. rewrite <- app_assoc, log_lines_app. reflexivity.
      * split; [reflexivity | apply skipped_line_mentions].
  - intros Hp. rewrite (OnStart_configures bits w v Hp).
    destruct (Configure_asks_first bits (asked w)) as (rest & E).
    destruct (ConfigureForSingleCPU bits (asked w)) as [[u | e] w'];
      (split; [reflexivity | ]); exists rest;
      cbn [snd] in *; rewrite E; cbn [asked trace record];
      rewrite <- app_assoc; reflexivity.
Qed.

Lemma OnStart_override_precedence_empty_value :
  let w := start_world [("CPUCount", "")] 15 15 None (fun _ => None) in
  OnStart 32 w = (Returned true, record (LogLine Info (skipped_line "")) (asked w)) /\
  log_lines (trace (snd (OnStart 32 w))) = log_lines (trace w) ++ [(Info, skipped_line "")] /\
  skipped_line "" = ("Skipped because the command line contains -CPUCount:" ++ "" ++ ".")%string /\
  mentions (skipped_line "") "" = true.
Proof.
  intros w.
  apply (proj2 (proj1 (OnStart_override_precedence 32 w "") eq_refl)).
  reflexivity.
Defined.

(** ** Failure of a Win32 call *)

(** C3.  When [GetProcessAffinityMask] fails, or it succeeds and
    [SetProcessAffinityMask] fails, with diagnostic text [d], and the logger
    writes the error line, [ConfigureForSingleCPU] returns normally, the log
    gains exactly one line, at level [Error], which contains [d], and the
    affinity of the process is unchanged; [OnStart], when the switch is not
    there, returns [true]. *)
Theorem ConfigureForSingleCPU_fails_open (bits : Z) (w : World) (d : string) :
  query_failure w = Some d \/
  (query_failure w = None /\
   set_failure w (GetLowestSetBitMask bits (systemAffinity w)) = Some d) ->
  logger_fault w Error (os_error_line d) = None ->
  fst (ConfigureForSingleCPU bits w) = Returned tt /\
  log_lines (trace (snd (ConfigureForSingleCPU bits w)))
  = log_lines (trace w) ++ [(Error, os_error_line d)] /\
  os_error_line d
  = ("An OS error occurred when configuring the game to use 1 CPU: " ++ d ++ ".")%string /\
  mentions (os_error_line d) d = true /\
  processAffinity (snd (ConfigureForSingleCPU bits w)) = processAffinity w /\
  (forall v : string,
     IsSwitchPresent (CommandLine w) "CPUCount" "" true = (false, v) ->
     fst (OnStart bits w) = Returned true /\
     log_lines (trace (snd (OnStart bits w)))
     = log_lines (trace w) ++ [(Error, os_error_line d)]).
Proof.
  intros Hfail Hl.
  assert (Hrun : forall w0 : World,
             query_failure w0 = query_failure w ->
             set_failure w0 = set_failure w ->
             systemAffinity w0 = systemAffinity w ->
             logger_fault w0 = logger_fault w ->
             exists calls : list Event,
               log_lines calls = [] /\
               ConfigureForSingleCPU bits w0
               = (Returned tt,
                  {| CommandLine := CommandLine w0;
                     processAffinity := processAffinity w0;
                     systemAffinity := systemAffinity w0;
                     query_failure := query_failure w0;
                     set_failure := set_failure w0;
                     logger_fault := logger_fault w0;
                     trace := (trace w0 ++ calls) ++ [LogLine Error (os_error_line d)] |})).
  { intros w0 Eq Es Ea El.
    destruct Hfail as [Hq | [Hq Hs]].
    - exists [CallGetProcessAffinityMask]. split; [reflexivity | ].
      rewrite (Configure_query_fails bits w0 d).
      + reflexivity.
      + rewrite Eq. exact Hq.
      + rewrite El. exact Hl.
    - exists [CallGetProcessAffinityMask;
              CallSetProcessAffinityMask (GetLowestSetBitMask bits (systemAffinity w0))].
      split; [reflexivity | ].
      rewrite (Configure_set_fails bits w0 d).
      + unfold record. cbn [trace CommandLine processAffinity systemAffinity
                             query_failure set_failure logger_fault].
        rewrite <- (app_assoc (trace w0)). reflexivity.
      + rewrite Eq. exact Hq.
      + rewrite Es, Ea. exact Hs.
      + rewrite El. exact Hl. }
  destruct (Hrun w eq_refl eq_refl eq_refl eq_refl) as (calls & Hcalls & E).
  rewrite E. cbn [fst snd trace processAffinity].
  split; [reflexivity | ]. split.
  { rewrite !log_lines_app, Hcalls, app_nil_r. reflexivity. }
  split; [reflexivity | ]. split; [apply os_error_line_mentions | ].
  split; [reflexivity | ].
  intros v Hp. rewrite (OnStart_configures bits w v Hp).
  destruct (Hrun (asked w) eq_refl eq_refl eq_refl eq_refl) as (calls' & Hcalls' & E').
  rewrite E'. cbn [fst snd trace asked record].
  split; [reflexivity | ].
  rewrite !log_lines_app, Hcalls', app_nil_r. cbn [log_lines]. rewrite app_nil_r. reflexivity.
Qed.

Lemma ConfigureForSingleCPU_fails_open_on_set :
  let w := start_world [] 15 15 None (fun _ => Some "The parameter is incorrect"%string) in
  fst (ConfigureForSingleCPU 32 w) = Returned tt /\
  log_lines (trace (snd (ConfigureForSingleCPU 32 w)))
  = log_lines (trace w) ++ [(Error, os_error_line "The parameter is incorrect")] /\
  os_error_line "The parameter is incorrect"
  = ("An OS error occurred when configuring the game to use 1 CPU: "
     ++ "The parameter is incorrect" ++ ".")%string /\
  mentions (os_error_line "The parameter is incorrect") "The parameter is incorrect" = true /\
  processAffinity (snd (ConfigureForSingleCPU 32 w)) = processAffinity w /\
  (forall v : string,
     IsSwitchPresent (CommandLine w) "CPUCount" "" true = (false, v) ->
     fst (OnStart 32 w) = Returned true /\
     log_lines (trace (snd (OnStart 32 w)))
     = log_lines (trace w) ++ [(Error, os_error_line "The parameter is incorrect")]).
Proof.
  intros w.
  apply (ConfigureForSingleCPU_fails_open 32 w "The parameter is incorrect").
  - right. split; reflexivity.
  - reflexivity.
Defined.

(** ** What the host sees *)

(** C5.  With a logger that writes, [OnStart] returns [true] on every
    command line and whatever the two Win32 calls answer: the switch there,
    both calls succeeding, or one of them failing; in each case the log
    gains exactly one line. *)
Theorem OnStart_returns_true (bits : Z) (w : World) :
  logger_writes w ->
  fst (OnStart bits w) = Returned true /\
  exists (level : LogLevel) (line : string),
    log_lines (trace (snd (OnStart bits w))) = log_lines (trace w) ++ [(level, line)] /\
    (line = skipped_line (snd (IsSwitchPresent (CommandLine w) "CPUCount" "" true)) \/
     line = configured_line \/
     exists d : string, line = os_error_line d).
Proof.
  intros Hlog.
  destruct (IsSwitchPresent (CommandLine w) "CPUCount" "" true) as [[ | ] v] eqn:Hp.
  - rewrite (OnStart_skips bits w v Hp (Hlog _ _)).
    split; [reflexivity | ]. exists Info, (skipped_line v). split.
    + cbn [snd trace record asked]. rewrite <- app_assoc, log_lines_app. reflexivity.
    + left. reflexivity.
  - rewrite (OnStart_configures bits w v Hp).
    destruct (query_failure w) as [d | ] eqn:Hq.
    + rewrite (Configure_query_fails bits (asked w) d Hq (Hlog _ _)).
      split; [reflexivity | ]. exists Error, (os_error_line d). split.
      * cbn [snd trace record asked]. rewrite <- !app_assoc, log_lines_app. reflexivity.
      * right. right. exists d. reflexivity.
    + destruct (set_failure w (GetLowestSetBitMask bits (systemAffinity w)))
        as [d | ] eqn:Hs.
      * rewrite (Configure_set_fails bits (asked w) d Hq Hs (Hlog _ _)).
        split; [reflexivity | ]. exists Error, (os_error_line d). split.
        -- cbn [snd trace record asked]. rewrite <- !app_assoc, log_lines_app. reflexivity.
        -- right. right. exists d. reflexivity.
      * rewrite (Configure_applies bits (asked w) Hq Hs (Hlog _ _)).
        split; [reflexivity | ]. exists Info, configured_line. split.
        -- cbn [snd trace record asked set_processAffinity].
           rewrite <- !app_assoc, log_lines_app. reflexivity.
        -- right. left. reflexivity.
Qed.

Lemma OnStart_returns_true_on_query_failure :
  let w := start_world [] 15 15 (Some "Access is denied"%string) (fun _ => None) in
  fst (OnStart 32 w) = Returned true /\
  exists (level : LogLevel) (line : string),
    log_lines (trace (snd (OnStart 32 w))) = log_lines (trace w) ++ [(level, line)] /\
    (line = skipped_line (snd (IsSwitchPresent (CommandLine w) "CPUCount" "" true)) \/
     line = configured_line \/
     exists d : string, line = os_error_line d).
Proof.
  intros w. apply (OnStart_returns_true 32 w).
  intros level line. reflexivity.
Defined.

(** ** The selected processor *)

(** C4, as the code has it.  When the query succeeds with a non-zero system
    mask, the one mask handed to [SetProcessAffinityMask] is a single bit,
    the lowest bit set in the system mask; it is a bit of the process mask
    when the two masks are equal. *)
Theorem selected_bit_in_system_mask (bits : Z) (w : World) :
  0 < bits ->
  query_failure w = None ->
  is_DWORD_PTR bits (systemAffinity w) ->
  systemAffinity w <> 0 ->
  exists k : Z,
    0 <= k < bits /\
    set_masks (trace (snd (ConfigureForSingleCPU bits w))) = set_masks (trace w) ++ [2 ^ k] /\
    Z.testbit (systemAffinity w) k = true /\
    (forall j : Z, 0 <= j < k -> Z.testbit (systemAffinity w) j = false) /\
    (processAffinity w = systemAffinity w -> Z.testbit (processAffinity w) k = true).
Proof.
  intros Hb Hq Hs Hne.
  destruct (GetLowestSetBitMask_lowest bits Hb (systemAffinity w) Hs Hne)
    as (k & Hk & E & Hbit & Hlow).
  destruct (Configure_calls bits w Hq) as (rest & Et & Hrest & _).
  exists k. split; [exact Hk | ]. split.
  - rewrite Et, set_masks_app. cbn [set_masks]. rewrite Hrest, E. reflexivity.
  - split; [exact Hbit | ]. split; [exact Hlow | ].
    intros Heq. rewrite Heq. exact Hbit.
Qed.

Lemma selected_bit_in_system_mask_at_0110 :
  let w := start_world [] 4 6 None (fun _ => None) in
  exists k : Z,
    0 <= k < 32 /\
    set_masks (trace (snd (ConfigureForSingleCPU 32 w))) = set_masks (trace w) ++ [2 ^ k] /\
    Z.testbit (systemAffinity w) k = true /\
    (forall j : Z, 0 <= j < k -> Z.testbit (systemAffinity w) j = false) /\
    (processAffinity w = systemAffinity w -> Z.testbit (processAffinity w) k = true).
Proof.
  intros w. apply (selected_bit_in_system_mask 32 w).
  - lia.
  - reflexivity.
  - unfold is_DWORD_PTR, modulus. simpl. lia.
  - simpl. lia.
Defined.

(** C4, as the claim has it, fails: with the process confined to processor
    2 (mask 4) on a system with processors 0 to 2 (mask 7), the mask handed
    to [SetProcessAffinityMask] is 1, a bit the process mask does not have. *)
Lemma selected_bit_outside_process_mask :
  let w := start_world [] 4 7 None (fun _ => None) in
  ~ (forall mask : Z,
       In mask (set_masks (trace (snd (ConfigureForSingleCPU 32 w)))) ->
       Z.land mask (processAffinity w) = mask).
Proof.
  intros w H.
  specialize (H 1 (or_introl eq_refl)).
  discriminate H.
Qed.

(** ** The scenario of the specification *)

(** C6.  With a system mask of [0b1010], no [CPUCount] switch, both Win32
    calls succeeding and a logger that writes, [SetProcessAffinityMask] is
    called once, with [0b0010], and the log gains exactly one line, at level
    [Info], that mentions [1 CPU core]. *)
Theorem scenario_1010 (bits : Z) (w : World) (v : string) :
  4 <= bits ->
  systemAffinity w = 10 ->
  query_failure w = None ->
  set_failure w 2 = None ->
  logger_fault w Info configured_line = None ->
  IsSwitchPresent (CommandLine w) "CPUCount" "" true = (false, v) ->
  fst (OnStart bits w) = Returned true /\
  set_masks (trace (snd (OnStart bits w))) = set_masks (trace w) ++ [2] /\
  processAffinity (snd (OnStart bits w)) = 2 /\
  log_lines (trace (snd (OnStart bits w))) = log_lines (trace w) ++ [(Info, configured_line)] /\
  mentions configured_line "1 CPU core" = true.
Proof.
  intros Hb Hsys Hq Hs Hl Hp.
  assert (Hmask : GetLowestSetBitMask bits (systemAffinity (asked w)) = 2).
  { cbn [asked record systemAffinity]. rewrite Hsys.
    rewrite GetLowestSetBitMask_land_opp; [reflexivity | lia | ].
    unfold is_DWORD_PTR, modulus.
    assert (2 ^ 4 <= 2 ^ bits) by (apply Z.pow_le_mono_r; lia).
    change (2 ^ 4) with 16 in *. lia. }
  rewrite (OnStart_configures bits w v Hp).
  rewrite (Configure_applies bits (asked w)).
  - rewrite Hmask. cbn [fst snd trace record asked set_processAffinity processAffinity].
    split; [reflexivity | ]. split.
    + rewrite <- !app_assoc, set_masks_app. reflexivity.
    + split; [reflexivity | ]. split.
      * rewrite <- !app_assoc, log_lines_app. reflexivity.
      * reflexivity.
  - exact Hq.
  - rewrite Hmask. exact Hs.
  - exact Hl.
Qed.

Lemma scenario_1010_x86 :
  let w := start_world [] 10 10 None (fun _ => None) in
  fst (OnStart 32 w) = Returned true /\
  set_masks (trace (snd (OnStart 32 w))) = set_masks (trace w) ++ [2] /\
  processAffinity (snd (OnStart 32 w)) = 2 /\
  log_lines (trace (snd (OnStart 32 w))) = log_lines (trace w) ++ [(Info, configured_line)] /\
  mentions configured_line "1 CPU core" = true.
Proof.
  intros w. apply (scenario_1010 32 w ""); try reflexivity. lia.
Defined.

(** ** Determinism of the selection *)

(** C7.  [GetLowestSetBitMask] depends on its argument alone: two calls with
    the same mask, made in any world, return the same value and leave the
    world as it was; and two worlds that differ in everything but the system
    mask the query reports hand the same mask to [SetProcessAffinityMask]. *)
Theorem GetLowestSetBitMask_deterministic (bits M : Z) (w1 w2 : World) :
  query_failure w1 = None ->
  query_failure w2 = None ->
  systemAffinity w1 = M ->
  systemAffinity w2 = M ->
  (first <- ret (GetLowestSetBitMask bits M) ;;
   second <- ret (GetLowestSetBitMask bits M) ;;
   ret (first =? second)) w1 = (Returned true, w1) /\
  fst (ret (GetLowestSetBitMask bits M) w1) = fst (ret (GetLowestSetBitMask bits M) w2) /\
  set_masks (trace (snd (ConfigureForSingleCPU bits w1)))
  = set_masks (trace w1) ++ [GetLowestSetBitMask bits M] /\
  set_masks (trace (snd (ConfigureForSingleCPU bits w2)))
  = set_masks (trace w2) ++ [GetLowestSetBitMask bits M].
Proof.
  intros Hq1 Hq2 Hs1 Hs2.
  split.
  { unfold bind, ret. rewrite Z.eqb_refl. reflexivity. }
  split; [reflexivity | ].
  destruct (Configure_calls bits w1 Hq1) as (rest1 & E1 & Hrest1 & _).
  destruct (Configure_calls bits w2 Hq2) as (rest2 & E2 & Hrest2 & _).
  rewrite E1, E2, !set_masks_app. cbn [set_masks].
  rewrite Hrest1, Hrest2, Hs1, Hs2. split; reflexivity.
Qed.

Lemma GetLowestSetBitMask_deterministic_two_worlds :
  let w1 := start_world [] 12 12 None (fun _ => None) in
  let w2 := record (LogLine Info "earlier")
              (start_world [("Intro", "off")] 4 12 None (fun _ => Some "refused"%string)) in
  (first <- ret (GetLowestSetBitMask 32 12) ;;
   second <- ret (GetLowestSetBitMask 32 12) ;;
   ret (first =? second)) w1 = (Returned true, w1) /\
  fst (ret (GetLowestSetBitMask 32 12) w1) = fst (ret (GetLowestSetBitMask 32 12) w2) /\
  set_masks (trace (snd (ConfigureForSingleCPU 32 w1)))
  = set_masks (trace w1) ++ [GetLowestSetBitMask 32 12] /\
  set_masks (trace (snd (ConfigureForSingleCPU 32 w2)))
  = set_masks (trace w2) ++ [GetLowestSetBitMask 32 12].
Proof.
  intros w1 w2.
  apply (GetLowestSetBitMask_deterministic 32 12 w1 w2); reflexivity.
Defined.

(** ** Exceptions of another class *)

(** C8.  The [catch] of [ConfigureForSingleCPU] takes a
    [wil::ResultException] and nothing else.  When both Win32 calls succeed
    and the logger throws an exception of another class at the line of
    success, that exception leaves [ConfigureForSingleCPU] and, when the
    switch is not there, [OnStart]: no error line is written and [OnStart]
    does not return.  For any body and handler, an exception of another
    class passes through the [catch], a [wil::ResultException] goes to the
    handler. *)
Theorem other_exception_propagates (bits : Z) (w : World) (msg : string) :
  query_failure w = None ->
  set_failure w (GetLowestSetBitMask bits (systemAffinity w)) = None ->
  logger_fault w Info configured_line = Some (OtherException msg) ->
  fst (ConfigureForSingleCPU bits w) = Thrown (OtherException msg) /\
  log_lines (trace (snd (ConfigureForSingleCPU bits w))) = log_lines (trace w) /\
  (forall v : string,
     IsSwitchPresent (CommandLine w) "CPUCount" "" true = (false, v) ->
     fst (OnStart bits w) = Thrown (OtherException msg)) /\
  (forall (A : Type) (body : M A) (handler : string -> M A) (w0 w1 : World) (what : string),
     body w0 = (Thrown (OtherException what), w1) ->
     try_catch_ResultException body handler w0 = (Thrown (OtherException what), w1)) /\
  (forall (A : Type) (body : M A) (handler : string -> M A) (w0 w1 : World) (what : string),
     body w0 = (Thrown (ResultException what), w1) ->
     try_catch_ResultException body handler w0 = handler what w1).
Proof.
  intros Hq Hs Hl.
  split.
  { rewrite (Configure_set_succeeds bits w Hq Hs). cbv zeta. rewrite Hl. reflexivity. }
  split.
  { rewrite (Configure_set_succeeds bits w Hq Hs). cbv zeta. rewrite Hl.
    cbn [snd trace record set_processAffinity].
    rewrite <- !app_assoc, log_lines_app. cbn [log_lines app]. apply app_nil_r. }
  split.
  { intros v Hp. rewrite (OnStart_configures bits w v Hp).
    rewrite (Configure_set_succeeds bits (asked w) Hq Hs). cbv zeta.
    cbn [asked record logger_fault]. rewrite Hl. reflexivity. }
  split.
  - intros A body handler w0 w1 what Hbody.
    unfold try_catch_ResultException. rewrite Hbody. reflexivity.
  - intros A body handler w0 w1 what Hbody.
    unfold try_catch_ResultException. rewrite Hbody. reflexivity.
Qed.

Lemma other_exception_propagates_bad_alloc :
  let w := {| CommandLine := cmdline_of [];
              processAffinity := 15;
              systemAffinity := 15;
              query_failure := None;
              set_failure := fun _ => None;
              logger_fault := fun _ _ => Some (OtherException "std::bad_alloc");
              trace := [] |} in
  fst (ConfigureForSingleCPU 32 w) = Thrown (OtherException "std::bad_alloc") /\
  fst (OnStart 32 w) = Thrown (OtherException "std::bad_alloc").
Proof.
  intros w.
  destruct (other_exception_propagates 32 w "std::bad_alloc" eq_refl eq_refl eq_refl)
    as (Hconf & _ & Hstart & _).
  split; [exact Hconf | exact (Hstart "" eq_refl)].
Defined.

(** ** The zero mask *)

(** C9.  [GetLowestSetBitMask 0] is [0], a value with no bit set; when the
    query succeeds with a system mask of [0] and the switch is not there,
    [SetProcessAffinityMask] is called, with the mask [0]. *)
Theorem zero_mask_passed_on (bits : Z) (w : World) (v : string) :
  0 < bits ->
  query_failure w = None ->
  systemAffinity w = 0 ->
  IsSwitchPresent (CommandLine w) "CPUCount" "" true = (false, v) ->
  GetLowestSetBitMask bits 0 = 0 /\
  bits_set bits (GetLowestSetBitMask bits 0) = 0%nat /\
  set_masks (trace (snd (OnStart bits w))) = set_masks (trace w) ++ [0] /\
  exists rest : list Event,
    trace (snd (OnStart bits w))
    = trace w ++ CallIsSwitchPresent "CPUCount" true :: CallGetProcessAffinityMask
        :: CallSetProcessAffinityMask 0 :: rest.
Proof.
  intros Hb Hq Hsys Hp.
  pose proof (GetLowestSetBitMask_zero bits Hb) as Hzero.
  split; [exact Hzero | ]. split.
  { rewrite Hzero. apply count_from_zero. }
  assert (Hsnd : snd (OnStart bits w) = snd (ConfigureForSingleCPU bits (asked w))).
  { rewrite (OnStart_configures bits w v Hp).
    destruct (ConfigureForSingleCPU bits (asked w)) as [[u | e] w']; reflexivity. }
  rewrite Hsnd.
  destruct (Configure_calls bits (asked w) Hq) as (rest & E & Hrest & _).
  rewrite E. cbn [asked record systemAffinity trace]. rewrite Hsys, Hzero.
  split.
  - rewrite <- app_assoc, set_masks_app. cbn [set_masks app]. rewrite Hrest. reflexivity.
  - exists rest. rewrite <- app_assoc. reflexivity.
Qed.

Lemma zero_mask_passed_on_x86 :
  let w := start_world [] 0 0 None (fun _ => None) in
  GetLowestSetBitMask 32 0 = 0 /\
  bits_set 32 (GetLowestSetBitMask 32 0) = 0%nat /\
  set_masks (trace (snd (OnStart 32 w))) = set_masks (trace w) ++ [0] /\
  exists rest : list Event,
    trace (snd (OnStart 32 w))
    = trace w ++ CallIsSwitchPresent "CPUCount" true :: CallGetProcessAffinityMask
        :: CallSetProcessAffinityMask 0 :: rest.
Proof.
  intros w. apply (zero_mask_passed_on 32 w ""); reflexivity.
Defined.

(** * Further properties of the selection *)

Section SelectionFacts.

Variable bits : Z.
Hypothesis bits_pos : 0 < bits.

Lemma is_DWORD_PTR_nonzero_bit (M k : Z) : Z.testbit M k = true -> M <> 0.
Proof. intros Hbit ->. rewrite Z.bits_0 in Hbit. discriminate. Qed.

(** The position C1 speaks of is the only one: a set bit of [M] with no set
    bit below it gives the result. *)
Lemma GetLowestSetBitMask_unique (M k : Z) :
  is_DWORD_PTR bits M -> 0 <= k ->
  Z.testbit M k = true ->
  (forall j : Z, 0 <= j < k -> Z.testbit M j = false) ->
  GetLowestSetBitMask bits M = 2 ^ k.
Proof.
  intros HM Hk Hbit Hlow.
  destruct (GetLowestSetBitMask_lowest bits bits_pos M HM (is_DWORD_PTR_nonzero_bit M k Hbit))
    as (k' & Hk' & E & Hbit' & Hlow').
  rewrite E. f_equal.
  destruct (Z.lt_trichotomy k k') as [Hlt | [Heq | Hgt]].
  - rewrite Hlow' in Hbit by lia. discriminate.
  - symmetry. exact Heq.
  - rewrite Hlow in Hbit' by lia. discriminate.
Qed.

Lemma pow2_is_DWORD_PTR (k : Z) : 0 <= k < bits -> is_DWORD_PTR bits (2 ^ k).
Proof.
  intros Hk. unfold is_DWORD_PTR, modulus. split.
  - apply Z.pow_nonneg. lia.
  - apply Z.pow_lt_mono_r; lia.
Qed.

Lemma GetLowestSetBitMask_pow2 (k : Z) :
  0 <= k < bits -> GetLowestSetBitMask bits (2 ^ k) = 2 ^ k.
Proof.
  intros Hk. apply GetLowestSetBitMask_unique.
  - apply pow2_is_DWORD_PTR. exact Hk.
  - lia.
  - apply Z.pow2_bits_true. lia.
  - intros j Hj. apply Z.pow2_bits_false. lia.
Qed.

Lemma lor_is_DWORD_PTR (a b : Z) :
  is_DWORD_PTR bits a -> is_DWORD_PTR bits b -> is_DWORD_PTR bits (Z.lor a b).
Proof.
  unfold is_DWORD_PTR, modulus. intros Ha Hb.
  assert (Hnn : 0 <= Z.lor a b) by (apply Z.lor_nonneg; lia).
  split; [exact Hnn | ].
  destruct (Z.eq_dec (Z.lor a b) 0) as [-> | Hne].
  - apply Z.pow_pos_nonneg; lia.
  - apply Z.log2_lt_pow2; [lia | ].
    rewrite Z.log2_lor by lia.
    destruct (Z.eq_dec a 0) as [-> | Hane], (Z.eq_dec b 0) as [-> | Hbne].
    + cbn. exact bits_pos.
    + rewrite Z.max_r by (cbn; apply Z.log2_nonneg).
      apply Z.log2_lt_pow2; lia.
    + rewrite Z.max_l by (cbn; apply Z.log2_nonneg).
      apply Z.log2_lt_pow2; lia.
    + apply Z.max_lub_lt; apply Z.log2_lt_pow2; lia.
Qed.

End SelectionFacts.

(** X1.  Selecting again changes nothing: on every mask of the
    pointer-sized type the result of [GetLowestSetBitMask] is a value the
    function maps to itself. *)
Theorem GetLowestSetBitMask_idempotent (bits M : Z) :
  0 < bits -> is_DWORD_PTR bits M ->
  GetLowestSetBitMask bits (GetLowestSetBitMask bits M) = GetLowestSetBitMask bits M.
Proof.
  intros Hb HM. destruct (Z.eq_dec M 0) as [-> | Hne].
  - rewrite !GetLowestSetBitMask_zero by exact Hb. reflexivity.
  - destruct (GetLowestSetBitMask_lowest bits Hb M HM Hne) as (k & Hk & E & _).
    rewrite E. apply GetLowestSetBitMask_pow2; assumption.
Qed.

Lemma GetLowestSetBitMask_idempotent_at_12 :
  GetLowestSetBitMask 32 (GetLowestSetBitMask 32 12) = GetLowestSetBitMask 32 12.
Proof.
  apply (GetLowestSetBitMask_idempotent 32 12).
  - lia.
  - unfold is_DWORD_PTR, modulus. simpl. lia.
Defined.

(** X2.  The selection agrees with a hard-coded mask of 1 exactly when
    processor 0 is in the mask: the result is 1 if and only if bit 0 of [M]
    is set; for a non-zero mask without bit 0 the result is at least 2, and
    1 is no bit of the mask. *)
Theorem GetLowestSetBitMask_first_processor (bits M : Z) :
  0 < bits -> is_DWORD_PTR bits M ->
  (Z.testbit M 0 = true <-> GetLowestSetBitMask bits M = 1) /\
  (M <> 0 -> Z.testbit M 0 = false ->
     2 <= GetLowestSetBitMask bits M /\ Z.land 1 M = 0).
Proof.
  intros Hb HM. split.
  - split.
    + intros Hbit. change 1 with (2 ^ 0).
      apply GetLowestSetBitMask_unique; trivial; [lia | intros j Hj; lia].
    + intros E. destruct (Z.eq_dec M 0) as [-> | Hne].
      * rewrite GetLowestSetBitMask_zero in E by exact Hb. discriminate.
      * destruct (GetLowestSetBitMask_lowest bits Hb M HM Hne) as (k & Hk & Ek & Hbit & _).
        rewrite E in Ek.
        assert (k = 0).
        { destruct (Z.eq_dec k 0) as [-> | Hk0]; [reflexivity | ].
          assert (2 ^ 1 <= 2 ^ k) by (apply Z.pow_le_mono_r; lia).
          change (2 ^ 1) with 2 in *. lia. }
        subst k. exact Hbit.
  - intros Hne Hbit0.
    destruct (GetLowestSetBitMask_lowest bits Hb M HM Hne) as (k & Hk & Ek & Hbit & _).
    split.
    + rewrite Ek.
      assert (k <> 0) by (intros ->; rewrite Hbit0 in Hbit; discriminate).
      assert (2 ^ 1 <= 2 ^ k) by (apply Z.pow_le_mono_r; lia).
      change (2 ^ 1) with 2 in *. lia.
    + rewrite Z.land_comm. change 1 with (Z.ones 1).
      rewrite Z.land_ones by lia. change (2 ^ 1) with 2.
      rewrite <- Z.bit0_mod, Hbit0. reflexivity.
Qed.

Lemma GetLowestSetBitMask_first_processor_at_1010 :
  (Z.testbit 10 0 = true <-> GetLowestSetBitMask 32 10 = 1) /\
  (10 <> 0 -> Z.testbit 10 0 = false ->
     2 <= GetLowestSetBitMask 32 10 /\ Z.land 1 10 = 0).
Proof.
  apply (GetLowestSetBitMask_first_processor 32 10).
  - lia.
  - unfold is_DWORD_PTR, modulus. simpl. lia.
Defined.

(** X3.  The width of the pointer does not matter: a mask that fits both
    widths gets the same result in an x86 and in an x64 build. *)
Theorem GetLowestSetBitMask_width_independent (bits1 bits2 M : Z) :
  0 < bits1 -> 0 < bits2 ->
  is_DWORD_PTR bits1 M -> is_DWORD_PTR bits2 M ->
  GetLowestSetBitMask bits1 M = GetLowestSetBitMask bits2 M.
Proof.
  intros Hb1 Hb2 HM1 HM2.
  rewrite (GetLowestSetBitMask_land_opp bits1 Hb1 M HM1).
  rewrite (GetLowestSetBitMask_land_opp bits2 Hb2 M HM2).
  reflexivity.
Qed.

Lemma GetLowestSetBitMask_width_independent_32_64 :
  GetLowestSetBitMask 32 2147483648 = GetLowestSetBitMask 64 2147483648.
Proof.
  apply GetLowestSetBitMask_width_independent.
  - lia.
  - lia.
  - unfold is_DWORD_PTR, modulus. simpl. lia.
  - unfold is_DWORD_PTR, modulus. simpl. lia.
Defined.

(** X4.  The masks the function leaves as they are are zero and the masks
    of a single processor, and no others. *)
Theorem GetLowestSetBitMask_fixed_points (bits M : Z) :
  0 < bits -> is_DWORD_PTR bits M ->
  (GetLowestSetBitMask bits M = M <-> M = 0 \/ exists k : Z, 0 <= k < bits /\ M = 2 ^ k).
Proof.
  intros Hb HM. split.
  - intros E. destruct (Z.eq_dec M 0) as [-> | Hne]; [left; reflexivity | right].
    destruct (GetLowestSetBitMask_lowest bits Hb M HM Hne) as (k & Hk & Ek & _).
    exists k. split; [exact Hk | ]. rewrite <- E. exact Ek.
  - intros [-> | (k & Hk & ->)].
    + apply GetLowestSetBitMask_zero. exact Hb.
    + apply GetLowestSetBitMask_pow2; assumption.
Qed.

Lemma GetLowestSetBitMask_fixed_points_at_8 :
  GetLowestSetBitMask 32 8 = 8 <-> 8 = 0 \/ exists k : Z, 0 <= k < 32 /\ 8 = 2 ^ k.
Proof.
  apply (GetLowestSetBitMask_fixed_points 32 8).
  - lia.
  - unfold is_DWORD_PTR, modulus. simpl. lia.
Defined.

(** X5.  Putting two non-empty sets of processors together selects the
    lower of the two selections: the result on [a | b] is the smaller of the
    results on [a] and on [b]. *)
Theorem GetLowestSetBitMask_lor (bits a b : Z) :
  0 < bits -> is_DWORD_PTR bits a -> is_DWORD_PTR bits b -> a <> 0 -> b <> 0 ->
  GetLowestSetBitMask bits (Z.lor a b)
  = Z.min (GetLowestSetBitMask bits a) (GetLowestSetBitMask bits b).
Proof.
  intros Hb Ha Hbb Hane Hbne.
  destruct (GetLowestSetBitMask_lowest bits Hb a Ha Hane) as (ka & Hka & Ea & Hbita & Hlowa).
  destruct (GetLowestSetBitMask_lowest bits Hb b Hbb Hbne) as (kb & Hkb & Eb & Hbitb & Hlowb).
  pose proof (lor_is_DWORD_PTR bits Hb a b Ha Hbb) as Hab.
  rewrite Ea, Eb.
  destruct (Z.le_ge_cases ka kb) as [Hle | Hge].
  - rewrite Z.min_l by (apply Z.pow_le_mono_r; lia).
    apply GetLowestSetBitMask_unique; trivial; [lia | | ].
    + rewrite Z.lor_spec, Hbita. reflexivity.
    + intros j Hj. rewrite Z.lor_spec, Hlowa, Hlowb by lia. reflexivity.
  - rewrite Z.min_r by (apply Z.pow_le_mono_r; lia).
    apply GetLowestSetBitMask_unique; trivial; [lia | | ].
    + rewrite Z.lor_spec, Hbitb. apply orb_true_r.
    + intros j Hj. rewrite Z.lor_spec, Hlowa, Hlowb by lia. reflexivity.
Qed.

Lemma GetLowestSetBitMask_lor_at_12_6 :
  GetLowestSetBitMask 32 (Z.lor 12 6)
  = Z.min (GetLowestSetBitMask 32 12) (GetLowestSetBitMask 32 6).
Proof.
  apply (GetLowestSetBitMask_lor 32 12 6).
  - lia.
  - unfold is_DWORD_PTR, modulus. simpl. lia.
  - unfold is_DWORD_PTR, modulus. simpl. lia.
  - lia.
  - lia.
Defined.

(** X6.  Taking the selected processor out of a non-zero mask leaves a mask
    of the same type, [M & (M - 1)], that no longer has the selected bit;
    when processors remain, the next selection is a higher bit. *)
Theorem GetLowestSetBitMask_remove (bits M : Z) :
  0 < bits -> is_DWORD_PTR bits M -> M <> 0 ->
  is_DWORD_PTR bits (M - GetLowestSetBitMask bits M) /\
  M - GetLowestSetBitMask bits M = Z.land M (M - 1) /\
  Z.land (GetLowestSetBitMask bits M) (M - GetLowestSetBitMask bits M) = 0 /\
  (M - GetLowestSetBitMask bits M <> 0 ->
   GetLowestSetBitMask bits M < GetLowestSetBitMask bits (M - GetLowestSetBitMask bits M)).
Proof.
  intros Hb HM Hne.
  destruct (GetLowestSetBitMask_lowest bits Hb M HM Hne) as (k & Hk & E & Hbit & Hlow).
  destruct (GetLowestSetBitMask_within bits Hb M HM) as (_ & Hnn & Hle).
  assert (Hrange : is_DWORD_PTR bits (M - GetLowestSetBitMask bits M)).
  { unfold is_DWORD_PTR in *. lia. }
  assert (Hdiff : M - 2 ^ k = Z.ldiff M (2 ^ k)).
  { apply Z.sub_nocarry_ldiff. apply Z.bits_inj'. intros n Hn.
    rewrite Z.ldiff_spec, Z.bits_0, Z.pow2_bits_eqb by lia.
    destruct (k =? n) eqn:Ekn; [ | reflexivity].
    apply Z.eqb_eq in Ekn. subst n. rewrite Hbit. reflexivity. }
  assert (Hrbits : forall n : Z, 0 <= n ->
            Z.testbit (M - 2 ^ k) n = Z.testbit M n && negb (k =? n)).
  { intros n Hn. rewrite Hdiff, Z.ldiff_spec, Z.pow2_bits_eqb by lia. reflexivity. }
  split; [exact Hrange | ]. split; [ | split].
  - rewrite (GetLowestSetBitMask_land_opp bits Hb M HM).
    rewrite <- (Z.lnot_opp M).
    rewrite Z.sub_nocarry_ldiff.
    + rewrite Z.ldiff_land, Z.lnot_land, Z.land_lor_distr_r,
        Z.land_lnot_diag, Z.lor_0_l. reflexivity.
    + apply Z.bits_inj'. intros n Hn.
      rewrite Z.ldiff_spec, Z.land_spec, Z.bits_0.
      destruct (Z.testbit M n), (Z.testbit (- M) n); reflexivity.
  - rewrite E. apply Z.bits_inj'. intros n Hn.
    rewrite Z.land_spec, Hrbits, Z.pow2_bits_eqb, Z.bits_0 by lia.
    destruct (k =? n), (Z.testbit M n); reflexivity.
  - rewrite E in *. intros Hrne.
    destruct (GetLowestSetBitMask_lowest bits Hb (M - 2 ^ k) Hrange Hrne)
      as (k' & Hk' & E' & Hbit' & _).
    rewrite E'. rewrite Hrbits in Hbit' by lia.
    apply andb_true_iff in Hbit'. destruct Hbit' as [HbitM Hneq].
    apply negb_true_iff, Z.eqb_neq in Hneq.
    apply Z.pow_lt_mono_r; try lia.
    destruct (Z.lt_ge_cases k' k) as [Hlt | Hge]; [ | lia].
    rewrite Hlow in HbitM by lia. discriminate.
Qed.

Lemma GetLowestSetBitMask_remove_at_1010 :
  is_DWORD_PTR 32 (10 - GetLowestSetBitMask 32 10) /\
  10 - GetLowestSetBitMask 32 10 = Z.land 10 (10 - 1) /\
  Z.land (GetLowestSetBitMask 32 10) (10 - GetLowestSetBitMask 32 10) = 0 /\
  (10 - GetLowestSetBitMask 32 10 <> 0 ->
   GetLowestSetBitMask 32 10 < GetLowestSetBitMask 32 (10 - GetLowestSetBitMask 32 10)).
Proof.
  apply (GetLowestSetBitMask_remove 32 10).
  - lia.
  - unfold is_DWORD_PTR, modulus. simpl. lia.
  - lia.
Defined.

(** X7.  The casts of line 47 on a [DWORD_PTR] [x]: the signed view lies in
    the range of [intptr_t] and converts back to [x]; the negated operand of
    [&] is the two's complement of [x], that is [0] for [0] and
    [2^bits - x] otherwise. *)
Theorem casts_two_s_complement (bits x : Z) :
  0 < bits -> is_DWORD_PTR bits x ->
  - half_modulus bits <= to_intptr bits x < half_modulus bits /\
  to_uintptr bits (to_intptr bits x) = x /\
  to_uintptr bits (neg_intptr bits (to_intptr bits x))
  = (if x =? 0 then 0 else modulus bits - x).
Proof.
  intros Hb Hx.
  assert (Hpow : modulus bits = 2 * half_modulus bits).
  { unfold modulus, half_modulus.
    replace bits with (1 + (bits - 1)) at 1 by ring.
    rewrite Z.pow_add_r by lia. reflexivity. }
  unfold is_DWORD_PTR in Hx.
  split; [ | split].
  - unfold to_intptr. cbv zeta. rewrite Z.mod_small by exact Hx.
    destruct (x <? half_modulus bits) eqn:E.
    + apply Z.ltb_lt in E. lia.
    + apply Z.ltb_ge in E. lia.
  - rewrite to_uintptr_to_intptr by exact Hb. apply Z.mod_small. exact Hx.
  - rewrite negated_operand by exact Hb.
    destruct (x =? 0) eqn:E.
    + apply Z.eqb_eq in E. subst x. apply Z.mod_0_l. lia.
    + apply Z.eqb_neq in E.
      replace (- x) with (modulus bits - x + (-1) * modulus bits) by ring.
      rewrite Z.mod_add by lia. apply Z.mod_small. lia.
Qed.

Lemma casts_two_s_complement_at_15 :
  - half_modulus 8 <= to_intptr 8 15 < half_modulus 8 /\
  to_uintptr 8 (to_intptr 8 15) = 15 /\
  to_uintptr 8 (neg_intptr 8 (to_intptr 8 15)) = (if 15 =? 0 then 0 else modulus 8 - 15).
Proof.
  apply (casts_two_s_complement 8 15).
  - lia.
  - unfold is_DWORD_PTR, modulus. simpl. lia.
Defined.

(** * Further properties of the runs *)

(** The lines of log a run has added, read off the final world. *)
Ltac close_logs :=
  cbn [snd trace record set_processAffinity];
  rewrite <- ?app_assoc;
  solve [ exists []; split; [reflexivity | left; reflexivity]
        | eexists [_]; split; [reflexivity | right; eauto] ].

Section RunFacts.

Variable bits : Z.

Lemma WriteLineFormatted_run (level : LogLevel) (format arg : string) (w : World) :
  WriteLineFormatted level format arg w
  = match logger_fault w level (format_s format arg) with
    | Some e => (Thrown e, w)
    | None => (Returned tt, record (LogLine level (format_s format arg)) w)
    end.
Proof. reflexivity. Qed.

(** A query that fails hands the run over to the handler. *)
Lemma Configure_query_fails_handler (w : World) (d : string) :
  query_failure w = Some d ->
  ConfigureForSingleCPU bits w
  = WriteLineFormatted Error
      "An OS error occurred when configuring the game to use 1 CPU: %s." d
      (record CallGetProcessAffinityMask w).
Proof.
  intros Hq.
  unfold ConfigureForSingleCPU, try_catch_ResultException, bind,
    THROW_IF_WIN32_BOOL_FALSE, GetProcessAffinityMask, GetCurrentProcess, ret, throw, bind.
  rewrite Hq. reflexivity.
Qed.

(** So does a set that fails. *)
Lemma Configure_set_fails_handler (w : World) (d : string) :
  query_failure w = None ->
  set_failure w (GetLowestSetBitMask bits (systemAffinity w)) = Some d ->
  ConfigureForSingleCPU bits w
  = WriteLineFormatted Error
      "An OS error occurred when configuring the game to use 1 CPU: %s." d
      (record (CallSetProcessAffinityMask (GetLowestSetBitMask bits (systemAffinity w)))
         (record CallGetProcessAffinityMask w)).
Proof.
  intros Hq Hs.
  unfold ConfigureForSingleCPU, try_catch_ResultException, bind,
    THROW_IF_WIN32_BOOL_FALSE, GetProcessAffinityMask, SetProcessAffinityMask,
    GetCurrentProcess, ret, throw, bind.
  rewrite Hq. cbn [set_failure record]. rewrite Hs. reflexivity.
Qed.

(** The world [OnStart] ends in is the one its branch ends in. *)
Lemma OnStart_world_absent (w : World) (v : string) :
  IsSwitchPresent (CommandLine w) "CPUCount" "" true = (false, v) ->
  snd (OnStart bits w) = snd (ConfigureForSingleCPU bits (asked w)).
Proof.
  intros Hp. rewrite (OnStart_configures bits w v Hp).
  destruct (ConfigureForSingleCPU bits (asked w)) as [[u | e] w']; reflexivity.
Qed.

Lemma OnStart_world_present (w : World) (v : string) :
  IsSwitchPresent (CommandLine w) "CPUCount" "" true = (true, v) ->
  snd (OnStart bits w)
  = snd (WriteLineFormatted Info
           "Skipped because the command line contains -CPUCount:%s." v (asked w)).
Proof.
  intros Hp.
  unfold OnStart, call_IsSwitchPresent, bind. cbv zeta. rewrite Hp.
  fold (asked w).
  destruct (WriteLineFormatted Info _ v (asked w)) as [[u | e] w']; reflexivity.
Qed.

(** The affinity of the process after [ConfigureForSingleCPU], whatever the
    logger does. *)
Lemma Configure_affinity (w : World) :
  processAffinity (snd (ConfigureForSingleCPU bits w))
  = match query_failure w, set_failure w (GetLowestSetBitMask bits (systemAffinity w)) with
    | None, None => GetLowestSetBitMask bits (systemAffinity w)
    | _, _ => processAffinity w
    end.
Proof.
  destruct (query_failure w) as [d | ] eqn:Hq.
  - rewrite (Configure_query_fails_handler w d Hq), WriteLineFormatted_run.
    cbn [logger_fault record]. case_logger w; reflexivity.
  - destruct (set_failure w (GetLowestSetBitMask bits (systemAffinity w))) as [d | ] eqn:Hs.
    + rewrite (Configure_set_fails_handler w d Hq Hs), WriteLineFormatted_run.
      cbn [logger_fault record]. case_logger w; reflexivity.
    + rewrite (Configure_set_succeeds bits w Hq Hs). cbv zeta.
      case_logger w; [ | reflexivity | reflexivity].
      rewrite WriteLineFormatted_run. cbn [logger_fault record set_processAffinity].
      case_logger w; reflexivity.
Qed.

(** The events [ConfigureForSingleCPU] adds: the query, the set call if the
    query succeeded, then at most one line of log. *)
Lemma Configure_events (w : World) :
  exists calls : list Event,
    (calls = [CallGetProcessAffinityMask] /\ query_failure w <> None \/
     calls = [CallGetProcessAffinityMask;
              CallSetProcessAffinityMask (GetLowestSetBitMask bits (systemAffinity w))] /\
     query_failure w = None) /\
    exists logs : list Event,
      trace (snd (ConfigureForSingleCPU bits w)) = trace w ++ calls ++ logs /\
      (logs = [] \/ exists (level : LogLevel) (line : string), logs = [LogLine level line]).
Proof.
  destruct (query_failure w) as [d | ] eqn:Hq.
  - exists [CallGetProcessAffinityMask].
    split; [left; split; [reflexivity | discriminate] | ].
    rewrite (Configure_query_fails_handler w d Hq), WriteLineFormatted_run.
    cbn [logger_fault record]. case_logger w; close_logs.
  - exists [CallGetProcessAffinityMask;
            CallSetProcessAffinityMask (GetLowestSetBitMask bits (systemAffinity w))].
    split; [right; split; reflexivity | ].
    destruct (set_failure w (GetLowestSetBitMask bits (systemAffinity w))) as [d | ] eqn:Hs.
    + rewrite (Configure_set_fails_handler w d Hq Hs), WriteLineFormatted_run.
      cbn [logger_fault record]. case_logger w; close_logs.
    + rewrite (Configure_set_succeeds bits w Hq Hs). cbv zeta.
      case_logger w; [ | close_logs | close_logs].
      rewrite WriteLineFormatted_run. cbn [logger_fault record set_processAffinity].
      case_logger w; close_logs.
Qed.

End RunFacts.

(** X8.  When [GetProcessAffinityMask] fails, [SetProcessAffinityMask] is
    never called and the affinity of the process stays as it was, in
    [ConfigureForSingleCPU] and in [OnStart], whatever the logger does. *)
Theorem failed_query_sets_nothing (bits : Z) (w : World) (d : string) :
  query_failure w = Some d ->
  set_masks (trace (snd (ConfigureForSingleCPU bits w))) = set_masks (trace w) /\
  processAffinity (snd (ConfigureForSingleCPU bits w)) = processAffinity w /\
  set_masks (trace (snd (OnStart bits w))) = set_masks (trace w) /\
  processAffinity (snd (OnStart bits w)) = processAffinity w.
Proof.
  intros Hq.
  assert (Hconf : forall w0 : World,
            query_failure w0 = Some d ->
            set_masks (trace (snd (ConfigureForSingleCPU bits w0))) = set_masks (trace w0) /\
            processAffinity (snd (ConfigureForSingleCPU bits w0)) = processAffinity w0).
  { intros w0 Hq0.
    rewrite (Configure_query_fails_handler bits w0 d Hq0), WriteLineFormatted_run.
    cbn [logger_fault record].
    case_logger w0; cbn [snd trace record processAffinity];
      rewrite ?set_masks_app; cbn [set_masks]; rewrite ?app_nil_r; split; reflexivity. }
  destruct (Hconf w Hq) as (Hmasks & Haff).
  split; [exact Hmasks | ]. split; [exact Haff | ].
  destruct (IsSwitchPresent (CommandLine w) "CPUCount" "" true) as [[ | ] v] eqn:Hp.
  - rewrite (OnStart_world_present bits w v Hp), WriteLineFormatted_run.
    cbn [logger_fault record asked].
    case_logger w; cbn [snd trace record processAffinity asked];
      rewrite ?set_masks_app; cbn [set_masks]; rewrite ?app_nil_r; split; reflexivity.
  - rewrite (OnStart_world_absent bits w v Hp).
    destruct (Hconf (asked w) Hq) as (Hmasks' & Haff').
    rewrite Hmasks', Haff'. cbn [asked record trace processAffinity].
    rewrite set_masks_app. cbn [set_masks]. rewrite app_nil_r. split; reflexivity.
Qed.

Lemma failed_query_sets_nothing_access_denied :
  let w := start_world [] 15 15 (Some "Access is denied"%string) (fun _ => None) in
  set_masks (trace (snd (ConfigureForSingleCPU 32 w))) = set_masks (trace w) /\
  processAffinity (snd (ConfigureForSingleCPU 32 w)) = processAffinity w /\
  set_masks (trace (snd (OnStart 32 w))) = set_masks (trace w) /\
  processAffinity (snd (OnStart 32 w)) = processAffinity w.
Proof.
  intros w. apply (failed_query_sets_nothing 32 w "Access is denied"). reflexivity.
Defined.

(** X9.  The affinity [OnStart] leaves the process with, in every world and
    whatever the logger does: the lowest set bit of the system mask when the
    switch is not there and both Win32 calls succeed, the affinity the
    process had in every other case. *)
Theorem OnStart_affinity (bits : Z) (w : World) :
  processAffinity (snd (OnStart bits w))
  = match IsSwitchPresent (CommandLine w) "CPUCount" "" true,
          query_failure w,
          set_failure w (GetLowestSetBitMask bits (systemAffinity w)) with
    | (false, _), None, None => GetLowestSetBitMask bits (systemAffinity w)
    | _, _, _ => processAffinity w
    end.
Proof.
  destruct (IsSwitchPresent (CommandLine w) "CPUCount" "" true) as [[ | ] v] eqn:Hp.
  - rewrite (OnStart_world_present bits w v Hp), WriteLineFormatted_run.
    cbn [logger_fault record asked]. case_logger w; reflexivity.
  - rewrite (OnStart_world_absent bits w v Hp), Configure_affinity.
    cbn [asked record query_failure set_failure systemAffinity processAffinity].
    destruct (query_failure w) as [d | ]; [reflexivity | ].
    destruct (set_failure w (GetLowestSetBitMask bits (systemAffinity w))); reflexivity.
Qed.

(** X10.  What [OnStart] asks of its collaborators, in every world: the
    command line once, first, for [CPUCount] with the case-sensitive flag;
    then nothing, or the affinity query, or the query and one set call with
    the lowest set bit of the system mask; then at most one line of log,
    last. *)
Theorem OnStart_events (bits : Z) (w : World) :
  exists calls logs : list Event,
    trace (snd (OnStart bits w))
    = trace w ++ CallIsSwitchPresent "CPUCount" true :: calls ++ logs /\
    (calls = [] \/
     calls = [CallGetProcessAffinityMask] \/
     calls = [CallGetProcessAffinityMask;
              CallSetProcessAffinityMask (GetLowestSetBitMask bits (systemAffinity w))]) /\
    (logs = [] \/ exists (level : LogLevel) (line : string), logs = [LogLine level line]).
Proof.
  destruct (IsSwitchPresent (CommandLine w) "CPUCount" "" true) as [[ | ] v] eqn:Hp.
  - exists []. rewrite (OnStart_world_present bits w v Hp), WriteLineFormatted_run.
    cbn [logger_fault record asked].
    case_logger w; cbn [snd trace record asked]; rewrite <- ?app_assoc.
    1, 2: exists []; split; [reflexivity | split; left; reflexivity].
    eexists [_]. split; [reflexivity | split; [left; reflexivity | right; eauto]].
  - rewrite (OnStart_world_absent bits w v Hp).
    destruct (Configure_events bits (asked w)) as (calls & Hcalls & logs & E & Hlogs).
    exists calls, logs. rewrite E. cbn [asked record trace]. rewrite <- app_assoc.
    split; [reflexivity | ]. split; [ | exact Hlogs].
    cbn [asked record systemAffinity query_failure] in Hcalls.
    destruct Hcalls as [[-> _] | [-> _]]; auto.
Qed.

(** X11.  A second call of the hook repeats the first: when the switch is
    not there, both Win32 calls succeed and the logger writes, two calls of
    [OnStart] in a row both return [true], hand the same mask to
    [SetProcessAffinityMask] and leave the process on that one processor. *)
Theorem OnStart_twice (bits : Z) (w : World) (v : string) :
  IsSwitchPresent (CommandLine w) "CPUCount" "" true = (false, v) ->
  query_failure w = None ->
  set_failure w (GetLowestSetBitMask bits (systemAffinity w)) = None ->
  logger_fault w Info configured_line = None ->
  fst ((first <- OnStart bits ;; OnStart bits) w) = Returned true /\
  processAffinity (snd ((first <- OnStart bits ;; OnStart bits) w))
  = processAffinity (snd (OnStart bits w)) /\
  set_masks (trace (snd ((first <- OnStart bits ;; OnStart bits) w)))
  = set_masks (trace w) ++ [GetLowestSetBitMask bits (systemAffinity w);
                            GetLowestSetBitMask bits (systemAffinity w)] /\
  log_lines (trace (snd ((first <- OnStart bits ;; OnStart bits) w)))
  = log_lines (trace w) ++ [(Info, configured_line); (Info, configured_line)].
Proof.
  intros Hp Hq Hs Hl.
  assert (Hrun : forall w0 : World,
            CommandLine w0 = CommandLine w ->
            query_failure w0 = None ->
            systemAffinity w0 = systemAffinity w ->
            set_failure w0 = set_failure w ->
            logger_fault w0 = logger_fault w ->
            OnStart bits w0
            = (Returned true,
               record (LogLine Info configured_line)
                 (set_processAffinity (GetLowestSetBitMask bits (systemAffinity w))
                    (record (CallSetProcessAffinityMask
                               (GetLowestSetBitMask bits (systemAffinity w)))
                       (record CallGetProcessAffinityMask (asked w0)))))).
  { intros w0 Ec Eq Ea Es El.
    rewrite (OnStart_configures bits w0 v) by (rewrite Ec; exact Hp).
    rewrite (Configure_applies bits (asked w0)).
    - cbn [asked record systemAffinity]. rewrite Ea. reflexivity.
    - exact Eq.
    - cbn [asked record systemAffinity set_failure]. rewrite Es, Ea. exact Hs.
    - cbn [asked record logger_fault]. rewrite El. exact Hl. }
  unfold bind.
  rewrite (Hrun w eq_refl Hq eq_refl eq_refl eq_refl).
  rewrite Hrun by (trivial; reflexivity).
  cbn [fst snd processAffinity trace record set_processAffinity asked].
  split; [reflexivity | ]. split; [reflexivity | ].
  rewrite <- !app_assoc, !set_masks_app, !log_lines_app. split; reflexivity.
Qed.

Lemma OnStart_twice_x86 :
  let w := start_world [] 10 10 None (fun _ => None) in
  fst ((first <- OnStart 32 ;; OnStart 32) w) = Returned true /\
  processAffinity (snd ((first <- OnStart 32 ;; OnStart 32) w))
  = processAffinity (snd (OnStart 32 w)) /\
  set_masks (trace (snd ((first <- OnStart 32 ;; OnStart 32) w)))
  = set_masks (trace w) ++ [GetLowestSetBitMask 32 (systemAffinity w);
                            GetLowestSetBitMask 32 (systemAffinity w)] /\
  log_lines (trace (snd ((first <- OnStart 32 ;; OnStart 32) w)))
  = log_lines (trace w) ++ [(Info, configured_line); (Info, configured_line)].
Proof.
  intros w. apply (OnStart_twice 32 w ""); reflexivity.
Defined.

(** X12.  The handler is not itself protected: when a Win32 call has failed
    with diagnostic [d] and the logger throws [e] at the error line, [e]
    leaves [ConfigureForSingleCPU], also when [e] is a
    [wil::ResultException]; nothing is logged, and [OnStart], when the
    switch is not there, does not return. *)
Theorem handler_exception_propagates (bits : Z) (w : World) (d : string) (e : exn) :
  query_failure w = Some d \/
  (query_failure w = None /\
   set_failure w (GetLowestSetBitMask bits (systemAffinity w)) = Some d) ->
  logger_fault w Error (os_error_line d) = Some e ->
  fst (ConfigureForSingleCPU bits w) = Thrown e /\
  log_lines (trace (snd (ConfigureForSingleCPU bits w))) = log_lines (trace w) /\
  (forall v : string,
     IsSwitchPresent (CommandLine w) "CPUCount" "" true = (false, v) ->
     fst (OnStart bits w) = Thrown e).
Proof.
  intros Hfail Hl.
  assert (Hconf : forall w0 : World,
            query_failure w0 = query_failure w ->
            set_failure w0 = set_failure w ->
            systemAffinity w0 = systemAffinity w ->
            logger_fault w0 = logger_fault w ->
            fst (ConfigureForSingleCPU bits w0) = Thrown e /\
            log_lines (trace (snd (ConfigureForSingleCPU bits w0))) = log_lines (trace w0)).
  { intros w0 Eq Es Ea El.
    destruct Hfail as [Hq | [Hq Hs]].
    - rewrite (Configure_query_fails_handler bits w0 d) by (rewrite Eq; exact Hq).
      rewrite WriteLineFormatted_run, format_os_error.
      cbn [logger_fault record]. rewrite El, Hl. cbn [fst snd trace record].
      rewrite log_lines_app. cbn [log_lines]. rewrite app_nil_r. split; reflexivity.
    - rewrite (Configure_set_fails_handler bits w0 d)
        by (rewrite ?Eq, ?Es, ?Ea; assumption).
      rewrite WriteLineFormatted_run, format_os_error.
      cbn [logger_fault record]. rewrite El, Hl. cbn [fst snd trace record].
      rewrite !log_lines_app. cbn [log_lines]. rewrite !app_nil_r. split; reflexivity. }
  destruct (Hconf w eq_refl eq_refl eq_refl eq_refl) as (Hthrown & Hlog).
  split; [exact Hthrown | ]. split; [exact Hlog | ].
  intros v Hp. rewrite (OnStart_configures bits w v Hp).
  destruct (Hconf (asked w) eq_refl eq_refl eq_refl eq_refl) as (Hthrown' & _).
  destruct (ConfigureForSingleCPU bits (asked w)) as [[u | e'] w']; cbn [fst] in *.
  - discriminate Hthrown'.
  - injection Hthrown' as ->. reflexivity.
Qed.

Lemma handler_exception_propagates_on_query :
  let w := {| CommandLine := cmdline_of [];
              processAffinity := 15;
              systemAffinity := 15;
              query_failure := Some "Access is denied"%string;
              set_failure := fun _ => None;
              logger_fault := fun _ _ => Some (ResultException "disk full");
              trace := [] |} in
  fst (ConfigureForSingleCPU 32 w) = Thrown (ResultException "disk full") /\
  log_lines (trace (snd (ConfigureForSingleCPU 32 w))) = log_lines (trace w) /\
  (forall v : string,
     IsSwitchPresent (CommandLine w) "CPUCount" "" true = (false, v) ->
     fst (OnStart 32 w) = Thrown (ResultException "disk full")).
Proof.
  intros w.
  apply (handler_exception_propagates 32 w "Access is denied" (ResultException "disk full")).
  - left. reflexivity.
  - reflexivity.
Defined.

(** X13.  What a successful configuration leaves behind: when the switch is
    not there, the system mask is a non-zero [DWORD_PTR] and both Win32
    calls succeed, the affinity of the process after [OnStart] has exactly
    one bit set, has no bit outside the system mask and is not above it,
    whatever the logger does. *)
Theorem OnStart_leaves_one_processor (bits : Z) (w : World) (v : string) :
  0 < bits ->
  is_DWORD_PTR bits (systemAffinity w) ->
  systemAffinity w <> 0 ->
  IsSwitchPresent (CommandLine w) "CPUCount" "" true = (false, v) ->
  query_failure w = None ->
  set_failure w (GetLowestSetBitMask bits (systemAffinity w)) = None ->
  bits_set bits (processAffinity (snd (OnStart bits w))) = 1%nat /\
  Z.land (processAffinity (snd (OnStart bits w))) (systemAffinity w)
  = processAffinity (snd (OnStart bits w)) /\
  0 < processAffinity (snd (OnStart bits w)) <= systemAffinity w.
Proof.
  intros Hb Hsys Hne Hp Hq Hs.
  rewrite (OnStart_world_absent bits w v Hp), Configure_affinity.
  cbn [asked record query_failure set_failure systemAffinity processAffinity].
  rewrite Hq, Hs.
  destruct (GetLowestSetBitMask_lowest bits Hb (systemAffinity w) Hsys Hne)
    as (k & Hk & E & _).
  destruct (GetLowestSetBitMask_within bits Hb (systemAffinity w) Hsys) as (Hsub & _ & Hle).
  split; [rewrite E; apply bits_set_pow2; exact Hk | ].
  split; [exact Hsub | ]. split; [ | exact Hle].
  rewrite E. apply Z.pow_pos_nonneg; lia.
Qed.

Lemma OnStart_leaves_one_processor_at_1100 :
  let w := start_world [] 12 12 None (fun _ => None) in
  bits_set 32 (processAffinity (snd (OnStart 32 w))) = 1%nat /\
  Z.land (processAffinity (snd (OnStart 32 w))) (systemAffinity w)
  = processAffinity (snd (OnStart 32 w)) /\
  0 < processAffinity (snd (OnStart 32 w)) <= systemAffinity w.
Proof.
  intros w. apply (OnStart_leaves_one_processor 32 w "").
  - lia.
  - unfold is_DWORD_PTR, modulus. simpl. lia.
  - simpl. lia.
  - reflexivity.
  - reflexivity.
  - reflexivity.
Defined.

(** X14.  The line of success is written inside the [try] block: when both
    Win32 calls succeed and the logger throws a [wil::ResultException] with
    text [d] at that line, the handler takes it; with the error line
    written, [ConfigureForSingleCPU] returns normally and the log gains one
    [Error] line with [d], although the affinity has been set. *)
Theorem success_line_failure_is_caught (bits : Z) (w : World) (d : string) :
  query_failure w = None ->
  set_failure w (GetLowestSetBitMask bits (systemAffinity w)) = None ->
  logger_fault w Info configured_line = Some (ResultException d) ->
  logger_fault w Error (os_error_line d) = None ->
  fst (ConfigureForSingleCPU bits w) = Returned tt /\
  log_lines (trace (snd (ConfigureForSingleCPU bits w)))
  = log_lines (trace w) ++ [(Error, os_error_line d)] /\
  set_masks (trace (snd (ConfigureForSingleCPU bits w)))
  = set_masks (trace w) ++ [GetLowestSetBitMask bits (systemAffinity w)] /\
  processAffinity (snd (ConfigureForSingleCPU bits w))
  = GetLowestSetBitMask bits (systemAffinity w).
Proof.
  intros Hq Hs Hinfo Herr.
  rewrite (Configure_set_succeeds bits w Hq Hs). cbv zeta. rewrite Hinfo.
  rewrite WriteLineFormatted_run, format_os_error.
  cbn [logger_fault record set_processAffinity]. rewrite Herr.
  unfold set_processAffinity, record. cbn [fst snd trace processAffinity].
  split; [reflexivity | ].
  rewrite <- !app_assoc, log_lines_app, set_masks_app.
  split; [reflexivity | ]. split; reflexivity.
Qed.

Lemma success_line_failure_is_caught_disk_full :
  let w := {| CommandLine := cmdline_of [];
              processAffinity := 15;
              systemAffinity := 12;
              query_failure := None;
              set_failure := fun _ => None;
              logger_fault := fun level _ =>
                match level with
                | Info => Some (ResultException "disk full")
                | Error => None
                end;
              trace := [] |} in
  fst (ConfigureForSingleCPU 32 w) = Returned tt /\
  log_lines (trace (snd (ConfigureForSingleCPU 32 w)))
  = log_lines (trace w) ++ [(Error, os_error_line "disk full")] /\
  set_masks (trace (snd (ConfigureForSingleCPU 32 w)))
  = set_masks (trace w) ++ [GetLowestSetBitMask 32 (systemAffinity w)] /\
  processAffinity (snd (ConfigureForSingleCPU 32 w))
  = GetLowestSetBitMask 32 (systemAffinity w).
Proof.
  intros w. apply (success_line_failure_is_caught 32 w "disk full"); reflexivity.
Defined.

(** X15.  The skip branch of [OnStart] has no [catch] around it: when the
    switch is there with value [v] and the logger throws [e] at the skip
    line, [e] leaves [OnStart], whatever its class; the command line is all
    that has been asked. *)
Theorem skip_line_exception_propagates (bits : Z) (w : World) (v : string) (e : exn) :
  IsSwitchPresent (CommandLine w) "CPUCount" "" true = (true, v) ->
  logger_fault w Info (skipped_line v) = Some e ->
  OnStart bits w = (Thrown e, asked w) /\
  trace (snd (OnStart bits w)) = trace w ++ [CallIsSwitchPresent "CPUCount" true].
Proof.
  intros Hp Hl.
  assert (E : OnStart bits w = (Thrown e, asked w)).
  { unfold OnStart, call_IsSwitchPresent, bind. cbv zeta. rewrite Hp.
    rewrite WriteLineFormatted_run, format_skipped.
    cbn [logger_fault record]. rewrite Hl. reflexivity. }
  rewrite E. split; reflexivity.
Qed.

Lemma skip_line_exception_propagates_bad_alloc :
  let w := {| CommandLine := cmdline_of [("CPUCount", "2")];
              processAffinity := 15;
              systemAffinity := 15;
              query_failure := None;
              set_failure := fun _ => None;
              logger_fault := fun _ _ => Some (OtherException "std::bad_alloc");
              trace := [] |} in
  OnStart 32 w = (Thrown (OtherException "std::bad_alloc"), asked w) /\
  trace (snd (OnStart 32 w)) = trace w ++ [CallIsSwitchPresent "CPUCount" true].
Proof.
  intros w.
  apply (skip_line_exception_propagates 32 w "2" (OtherException "std::bad_alloc"));
    reflexivity.
Defined.

Lemma Configure_outcome (bits : Z) (w : World) :
  fst (ConfigureForSingleCPU bits w) = Returned tt \/
  exists (level : LogLevel) (line : string) (e : exn),
    logger_fault w level line = Some e /\
    fst (ConfigureForSingleCPU bits w) = Thrown e.
Proof.
  destruct (query_failure w) as [d | ] eqn:Hq.
  - rewrite (Configure_query_fails_handler bits w d Hq), WriteLineFormatted_run.
    cbn [logger_fault record].
    destruct (logger_fault w Error _) as [e | ] eqn:Hl; [right | left; reflexivity].
    eauto.
  - destruct (set_failure w (GetLowestSetBitMask bits (systemAffinity w))) as [d | ] eqn:Hs.
    + rewrite (Configure_set_fails_handler bits w d Hq Hs), WriteLineFormatted_run.
      cbn [logger_fault record].
      destruct (logger_fault w Error _) as [e | ] eqn:Hl; [right | left; reflexivity].
      eauto.
    + rewrite (Configure_set_succeeds bits w Hq Hs). cbv zeta.
      destruct (logger_fault w Info configured_line) as [[d | msg] | ] eqn:Hinfo.
      * rewrite WriteLineFormatted_run. cbn [logger_fault record set_processAffinity].
        destruct (logger_fault w Error _) as [e | ] eqn:Hl; [right | left; reflexivity].
        eauto.
      * right. eauto.
      * left. reflexivity.
Qed.

(** X16.  [OnStart] fails in one way only: in every world it either returns
    [true] or ends with an exception the logger has thrown; a failure of a
    Win32 call never leaves it, and it never returns [false]. *)
Theorem OnStart_outcome (bits : Z) (w : World) :
  fst (OnStart bits w) = Returned true \/
  exists (level : LogLevel) (line : string) (e : exn),
    logger_fault w level line = Some e /\
    fst (OnStart bits w) = Thrown e.
Proof.
  destruct (IsSwitchPresent (CommandLine w) "CPUCount" "" true) as [[ | ] v] eqn:Hp.
  - unfold OnStart, call_IsSwitchPresent, bind. cbv zeta. rewrite Hp.
    rewrite WriteLineFormatted_run. cbn [logger_fault record].
    destruct (logger_fault w Info _) as [e | ] eqn:Hl; [right | left; reflexivity].
    eauto.
  - rewrite (OnStart_configures bits w v Hp).
    destruct (Configure_outcome bits (asked w)) as [Hret | (level & line & e & Hl & Hthrown)].
    + left. destruct (ConfigureForSingleCPU bits (asked w)) as [[u | e] w'];
        [reflexivity | discriminate Hret].
    + right. exists level, line, e. split; [exact Hl | ].
      destruct (ConfigureForSingleCPU bits (asked w)) as [[u | e'] w'].
      * discriminate Hthrown.
      * injection Hthrown as ->. reflexivity.
Qed.
